(** * Speaking-time tracker: a shallow embedding of
      [src/utils/speakingTimeTracker.js] and the properties of its
      state machine, party registry, statistics, formatter and report. *)

From Stdlib Require Import ZArith Lia Ascii String.
From stdpp Require Import gmap strings list fin_maps.

Local Open Scope Z_scope.
Local Open Scope string_scope.

(** ** JavaScript values

    The tracker is called from UI code and from hand-written tests with
    arguments of any primitive type.  Numbers are the integer-valued
    doubles (milliseconds, exactly representable: below 2^53 in absolute
    value), NaN and the two infinities. *)

Inductive JsNumber :=
| NaN
| Inf (negative : bool)
| Fin (z : Z).

Inductive JsVal :=
| JUndefined
| JNull
| JBool (b : bool)
| JNumber (n : JsNumber)
| JString (s : string).

(** The argument of [formatTime]: a number, or one of the two absent
    values.  (A string or an object would first go through [ToNumber];
    that conversion is not part of this development.) *)
Inductive MsArg :=
| MsUndefined
| MsNull
| MsNum (n : JsNumber).

(** [!v] is false exactly on the truthy values. *)
Definition truthy (v : JsVal) : bool :=
  match v with
  | JUndefined | JNull => false
  | JBool b => b
  | JNumber NaN => false
  | JNumber (Inf _) => true
  | JNumber (Fin z) => negb (Z.eqb z 0)
  | JString s => negb (String.eqb s "")
  end.

(** [typeof v === 'string'] *)
Definition isString (v : JsVal) : bool :=
  match v with JString _ => true | _ => false end.

(** ** Number to string

    [Number.prototype.toString] on an integer: the decimal digits, most
    significant first, with a minus sign for negative values.  (All the
    digits are printed up to [Number.MAX_SAFE_INTEGER] in absolute
    value; the properties below that print a number stay within it.) *)

Definition digitChar (d : Z) : ascii := ascii_of_nat (48 + Z.to_nat d).

Fixpoint digitsFuel (fuel : nat) (n : Z) (acc : string) : string :=
  match fuel with
  | O => acc
  | S f =>
      let acc' := String (digitChar (n mod 10)) acc in
      if Z.ltb n 10 then acc' else digitsFuel f (n / 10) acc'
  end.

Definition natToString (n : Z) : string :=
  digitsFuel (S (Z.to_nat (Z.log2 n))) n "".

Definition intToString (z : Z) : string :=
  if Z.ltb z 0 then String "-" (natToString (- z)) else natToString z.

Definition numberToString (n : JsNumber) : string :=
  match n with
  | NaN => "NaN"
  | Inf false => "Infinity"
  | Inf true => "-Infinity"
  | Fin z => intToString z
  end.

(** [ToString] / [ToPropertyKey] on a primitive value: what a template
    literal prints and what [obj[v]] uses as the key. *)
Definition toPropertyKey (v : JsVal) : string :=
  match v with
  | JUndefined => "undefined"
  | JNull => "null"
  | JBool true => "true"
  | JBool false => "false"
  | JNumber n => numberToString n
  | JString s => s
  end.

(** [s.padStart(target, c)] with a one-character pad string. *)
Fixpoint repeatChar (k : nat) (c : ascii) : string :=
  match k with
  | O => ""
  | S k' => String c (repeatChar k' c)
  end.

Definition padStart (s : string) (target : nat) (c : ascii) : string :=
  repeatChar (target - String.length s) c +:+ s.

(** ** Number arithmetic used by [formatTime]

    [Math.floor(x / d)] and [x % d] for a positive integer constant [d].
    (Up to [Number.MAX_SAFE_INTEGER] the floor of the quotient of the
    doubles is the floor of the exact quotient.) *)

Definition floorDiv (x : JsNumber) (d : Z) : JsNumber :=
  match x with
  | NaN => NaN
  | Inf s => Inf s
  | Fin z => Fin (z / d)
  end.

(** [%] keeps the sign of the dividend: truncated remainder. *)
Definition jsRem (x : JsNumber) (d : Z) : JsNumber :=
  match x with
  | NaN => NaN
  | Inf _ => NaN
  | Fin z => Fin (Z.rem z d)
  end.

(** [x < 0] and [x > 0]; every comparison with NaN is false. *)
Definition ltZero (x : JsNumber) : bool :=
  match x with
  | NaN => false
  | Inf s => s
  | Fin z => Z.ltb z 0
  end.

Definition gtZero (x : JsNumber) : bool :=
  match x with
  | NaN => false
  | Inf s => negb s
  | Fin z => Z.ltb 0 z
  end.

Definition isNaN (x : JsNumber) : bool :=
  match x with NaN => true | _ => false end.

(** ** [formatTime] (lines 236-256) *)

Definition formatTime (ms : MsArg) : string :=
  match ms with
  | MsNull | MsUndefined => "0:00"
  | MsNum x =>
      if isNaN x then "0:00"
      else if ltZero x then "0:00"
      else
        let seconds := floorDiv x 1000 in
        let minutes := floorDiv seconds 60 in
        let hours := floorDiv minutes 60 in
        if gtZero hours then
          numberToString hours +:+ ":" +:+
          padStart (numberToString (jsRem minutes 60)) 2 "0" +:+ ":" +:+
          padStart (numberToString (jsRem seconds 60)) 2 "0"
        else
          numberToString minutes +:+ ":" +:+
          padStart (numberToString (jsRem seconds 60)) 2 "0"
  end.

(** [Number.MAX_SAFE_INTEGER]: up to here every integer is a double, and
    the quotients and the decimal numerals that [formatTime] computes are
    the exact ones. *)
Definition maxSafeInteger : Z := 2 ^ 53 - 1.




(** ** Data model

    A segment and a timeline entry copy [newState.startTime], which is
    [null] or a number, into their [start] field. *)

Record Segment := mkSegment {
  seg_start : option Z;
  seg_end : Z;
  seg_duration : Z
}.

Record TimelineEntry := mkTimelineEntry {
  tl_party : string;
  tl_start : option Z;
  tl_end : Z;
  tl_duration : Z
}.

Record Participant := mkParticipant {
  totalTime : Z;
  segments : list Segment
}.

(** ** The store

    [{ ...state }] is a shallow copy: the new state object holds the
    same reference to the [parties] object and to the [timeline] array
    as the old one, and the operations then write through that
    reference.  The store keeps the objects that are shared this way.
    A participant record and its [segments] array are reachable only
    through the one [parties] object that holds them, so they are stored
    inside it.  The key order of the [parties] object is not
    represented. *)

Definition Ref := nat.

Record Heap := mkHeap {
  objects : list (gmap string Participant);
  arrays : list (list TimelineEntry)
}.

Definition emptyHeap : Heap := mkHeap [] [].

Definition partiesAt (h : Heap) (r : Ref) : gmap string Participant :=
  default ∅ (objects h !! r).

Definition timelineAt (h : Heap) (r : Ref) : list TimelineEntry :=
  default [] (arrays h !! r).

Definition writeParties (h : Heap) (r : Ref) (m : gmap string Participant)
  : Heap :=
  mkHeap (<[r := m]> (objects h)) (arrays h).

Definition writeTimeline (h : Heap) (r : Ref) (t : list TimelineEntry)
  : Heap :=
  mkHeap (objects h) (<[r := t]> (arrays h)).

Definition allocParties (h : Heap) (m : gmap string Participant)
  : Heap * Ref :=
  (mkHeap (objects h ++ [m]) (arrays h), length (objects h)).

Definition allocTimeline (h : Heap) (t : list TimelineEntry) : Heap * Ref :=
  (mkHeap (objects h) (arrays h ++ [t]), length (arrays h)).

(** The state object itself is never written to after it has been
    built, so it is a value; [parties] and [timeline] are references. *)
Record State := mkState {
  parties : Ref;
  currentSpeaker : option string;
  startTime : option Z;
  hearingStartTime : option Z;
  hearingEndTime : option Z;
  isActive : bool;
  isPaused : bool;
  timeline : Ref
}.

(** Truthiness of a field that is [null] or a number, of one that is
    [null] or a string, and [ToNumber] of the former. *)
Definition truthyTime (t : option Z) : bool :=
  match t with
  | None => false
  | Some z => negb (Z.eqb z 0)
  end.

Definition truthyName (n : option string) : bool :=
  match n with
  | None => false
  | Some s => negb (String.eqb s "")
  end.

Definition toNumber (t : option Z) : Z :=
  match t with
  | None => 0
  | Some z => z
  end.

(** ** [initializeSpeakingTime] (lines 11-33)

    [None] stands for an argument that is missing, [null] or not an
    array. *)

Definition defaultParties : list JsVal :=
  [JString "State"; JString "Defense"; JString "Court"].

Definition newParticipant : Participant := mkParticipant 0 [].

Definition initializeSpeakingTime (names : option (list JsVal)) (h : Heap)
  : Heap * State :=
  let names := match names with
               | None => defaultParties
               | Some l => l
               end in
  let acc := foldl (fun acc party => <[toPropertyKey party := newParticipant]> acc)
                   ∅ names in
  let '(h1, p) := allocParties h acc in
  let '(h2, t) := allocTimeline h1 [] in
  (h2, mkState p None None None None false false t).

(** ** [startSpeaking] (lines 41-112) and [stopTracking] (lines 119-170)

    The clock reading is an argument: [Some now] when [Date.now()]
    returns [now], [None] when it throws (the [catch] branch).  A read
    [parties[name]] is the lookup of a key of the parties object itself,
    which is what it is for an ordinary name (see Ordinary names below);
    then no other statement of the [try] block can throw, and the guards
    [!newState.parties], [!newState.timeline] and [!...segments] are
    never taken. *)

(** Lines 74-95 and 139-157: close the turn of [speaker], whose record
    is [p]. *)
Definition finalizeTurn (h : Heap) (st : State) (speaker : string)
  (p : Participant) (now : Z) : Heap :=
  let duration := now - toNumber (startTime st) in
  let p' := mkParticipant (totalTime p + duration)
              (segments p ++ [mkSegment (startTime st) now duration]) in
  let h1 := writeParties h (parties st)
              (<[speaker := p']> (partiesAt h (parties st))) in
  writeTimeline h1 (timeline st)
    (timelineAt h1 (timeline st)
       ++ [mkTimelineEntry speaker (startTime st) now duration]).

Definition startSpeaking (state : option State) (party : JsVal)
  (clock : option Z) (h : Heap) : Heap * State :=
  match state with
  | None => initializeSpeakingTime None h
  | Some st =>
      if negb (truthy party) || negb (isString party) then (h, st)
      else
        match clock with
        | None => (h, st)
        | Some now =>
            let name := toPropertyKey party in
            let first := negb (truthyTime (hearingStartTime st)) in
            let h1 :=
              match currentSpeaker st with
              | Some cs =>
                  if truthyName (Some cs) && negb (String.eqb cs name) then
                    match partiesAt h (parties st) !! cs with
                    | Some p => finalizeTurn h st cs p now
                    | None => h
                    end
                  else h
              | None => h
              end in
            let h2 :=
              match partiesAt h1 (parties st) !! name with
              | Some _ => h1
              | None =>
                  writeParties h1 (parties st)
                    (<[name := newParticipant]> (partiesAt h1 (parties st)))
              end in
            (h2,
             mkState (parties st) (Some name) (Some now)
               (if first then Some now else hearingStartTime st)
               (hearingEndTime st)
               (if first then true else isActive st)
               false
               (timeline st))
        end
  end.

Definition stopTracking (state : option State) (clock : option Z) (h : Heap)
  : Heap * State :=
  match state with
  | None => initializeSpeakingTime None h
  | Some st =>
      match clock with
      | None => (h, st)
      | Some now =>
          let h1 :=
            match currentSpeaker st with
            | Some cs =>
                if truthyName (Some cs) && truthyTime (startTime st) then
                  match partiesAt h (parties st) !! cs with
                  | Some p => finalizeTurn h st cs p now
                  | None => h
                  end
                else h
            | None => h
            end in
          (h1,
           mkState (parties st) None None (hearingStartTime st) (Some now)
             false true (timeline st))
      end
  end.

(** ** [addParty] (lines 375-402) and [removeParty] (lines 410-421) *)

(** Strings are sequences of ASCII characters; the white space that
    [trim] removes is tab, line feed, vertical tab, form feed, carriage
    return and space. *)
Definition isWhitespace (c : ascii) : bool :=
  let n := nat_of_ascii c in
  (Nat.leb 9 n && Nat.leb n 13) || Nat.eqb n 32.

Fixpoint trimStart (s : string) : string :=
  match s with
  | EmptyString => EmptyString
  | String c rest => if isWhitespace c then trimStart rest else s
  end.

Fixpoint trimEnd (s : string) : string :=
  match s with
  | EmptyString => EmptyString
  | String c rest =>
      match trimEnd rest with
      | EmptyString => if isWhitespace c then EmptyString else String c EmptyString
      | rest' => String c rest'
      end
  end.

Definition trim (s : string) : string := trimEnd (trimStart s).

(** [!partyName || typeof partyName !== 'string' || partyName.trim() === ''] *)
Definition rejectedName (partyName : JsVal) : bool :=
  negb (truthy partyName) || negb (isString partyName)
  || String.eqb (trim (toPropertyKey partyName)) "".

Definition addParty (state : option State) (partyName : JsVal) (h : Heap)
  : Heap * State :=
  let '(h0, st) := match state with
                   | None => initializeSpeakingTime None h
                   | Some st => (h, st)
                   end in
  if rejectedName partyName then (h0, st)
  else
    let name := toPropertyKey partyName in
    match partiesAt h0 (parties st) !! name with
    | Some _ => (h0, st)
    | None =>
        (writeParties h0 (parties st)
           (<[name := newParticipant]> (partiesAt h0 (parties st))),
         st)
    end.

(** What a call evaluates to: a returned value ([None] for a returned
    [null] or [undefined]) or an exception that leaves the function. *)
Inductive Outcome :=
| Returns (v : option State)
| Throws.

(** [newState.currentSpeaker === partyName] on a state object. *)
Definition speakerIs (cs : option string) (partyName : JsVal) : bool :=
  match cs, partyName with
  | None, JNull => true
  | Some s, JString n => String.eqb s n
  | _, _ => false
  end.

(** On an absent state [{ ...state }] is the empty object: its
    [currentSpeaker] is [undefined], and [delete newState.parties[..]]
    reads a property of [undefined], a TypeError. *)
Definition removeParty (state : option State) (partyName : JsVal) (h : Heap)
  : Heap * Outcome :=
  match state with
  | None =>
      match partyName with
      | JUndefined => (h, Returns None)
      | _ => (h, Throws)
      end
  | Some st =>
      if speakerIs (currentSpeaker st) partyName then (h, Returns (Some st))
      else
        (writeParties h (parties st)
           (delete (toPropertyKey partyName) (partiesAt h (parties st))),
         Returns (Some st))
  end.

(** ** [calculateStatistics] (lines 177-229)

    The [percentage] field, a [toFixed(1)] rendering of a floating-point
    quotient, is left out of the record. *)

Record PartyStats := mkPartyStats {
  ps_totalTime : Z;
  segmentCount : nat;
  averageSegmentTime : Z
}.

Record Stats := mkStats {
  totalHearingTime : Z;
  totalSpeakingTime : Z;
  silenceTime : Z;
  statsParties : gmap string PartyStats
}.

(** [Math.round(a / n)] for an integer [a] and a positive count [n]:
    the nearest integer, halves going up.  (For [a] below 2^52 in
    absolute value the quotient of the doubles lies on the same side of
    every half-integer as the exact quotient.) *)
Definition roundDiv (a : Z) (n : Z) : Z := (2 * a + n) / (2 * n).

(** [Object.values(parties).reduce((sum, party) => sum + f(party), 0)] *)
Definition sumValues (f : Participant -> Z) (m : gmap string Participant) : Z :=
  map_fold (fun _ p sum => sum + f p) 0 m.

Definition sumTotalTime (m : gmap string Participant) : Z :=
  sumValues totalTime m.

Definition partyStats (p : Participant) : PartyStats :=
  mkPartyStats (totalTime p) (length (segments p))
    (if Nat.ltb 0 (length (segments p))
     then roundDiv (totalTime p) (Z.of_nat (length (segments p)))
     else 0).

Definition calculateStatistics (state : option State) (h : Heap) : Stats :=
  match state with
  | None => mkStats 0 0 0 ∅
  | Some st =>
      let total := toNumber (hearingEndTime st) - toNumber (hearingStartTime st) in
      let ps := partiesAt h (parties st) in
      let speaking := sumTotalTime ps in
      mkStats (Z.max 0 total) speaking (Z.max 0 (total - speaking))
        (partyStats <$> ps)
  end.

(** ** The TIMELINE section of [generateTextReport] (lines 301-310)

    The report is also built from hand-written state objects, so an
    element of the timeline may be [null] and any of its fields may be
    absent.  Rendering a timestamp as a wall-clock time depends on the
    locale and the time zone of the host; it is a parameter. *)

Record ReportEntry := mkReportEntry {
  re_party : JsVal;
  re_start : JsVal;
  re_duration : MsArg
}.

Definition newline : string := String (ascii_of_nat 10) EmptyString.

Definition isDefined (d : MsArg) : bool :=
  match d with MsUndefined => false | _ => true end.

Section Report.

Variable toLocaleTimeString : JsVal -> string.

(** The text that one [forEach] step appends to the report, if any. *)
Definition timelineLine (index : nat) (segment : option ReportEntry)
  : option string :=
  match segment with
  | None => None
  | Some e =>
      if truthy (re_start e) && truthy (re_party e)
         && isDefined (re_duration e)
      then
        let startTime := toLocaleTimeString (re_start e) in
        let duration := formatTime (re_duration e) in
        Some (intToString (Z.of_nat index + 1) +:+ ". " +:+ startTime
              +:+ " - " +:+ toPropertyKey (re_party e)
              +:+ " (" +:+ duration +:+ ")" +:+ newline)
      else None
  end.

Fixpoint timelineLines (index : nat) (tl : list (option ReportEntry))
  : string :=
  match tl with
  | [] => ""
  | segment :: rest =>
      default "" (timelineLine index segment)
        +:+ timelineLines (S index) rest
  end.

Definition timelineSection (tl : list (option ReportEntry)) : string :=
  "TIMELINE" +:+ newline +:+ "--------" +:+ newline +:+ timelineLines 0 tl.



End Report.

(** ** Sequences of calls

    A session threads one state through the four operations: each call
    receives the value that the previous one returned. *)

Inductive Call :=
| CallStart (party : JsVal) (clock : option Z)
| CallStop (clock : option Z)
| CallAdd (partyName : JsVal)
| CallRemove (partyName : JsVal).

Definition call (c : Call) (state : option State) (h : Heap)
  : Heap * Outcome :=
  match c with
  | CallStart party clock =>
      let '(h', s) := startSpeaking state party clock h in (h', Returns (Some s))
  | CallStop clock =>
      let '(h', s) := stopTracking state clock h in (h', Returns (Some s))
  | CallAdd partyName =>
      let '(h', s) := addParty state partyName h in (h', Returns (Some s))
  | CallRemove partyName => removeParty state partyName h
  end.

Fixpoint runCalls (calls : list Call) (state : option State) (h : Heap)
  : Heap * Outcome :=
  match calls with
  | [] => (h, Returns state)
  | c :: rest =>
      match call c state h with
      | (h', Returns state') => runCalls rest state' h'
      | (h', Throws) => (h', Throws)
      end
  end.

(** A session: a fresh state, then the calls in order. *)
Definition session (names : option (list JsVal)) (calls : list Call)
  : Heap * Outcome :=
  let '(h, s) := initializeSpeakingTime names emptyHeap in
  runCalls calls (Some s) h.

(** Whether a call is a [startSpeaking] that gets past its guards, or a
    [stopTracking] that does. *)
Definition startsTurn (c : Call) : bool :=
  match c with
  | CallStart party (Some _) => truthy party && isString party
  | _ => false
  end.

Definition stopsTurn (c : Call) : bool :=
  match c with
  | CallStop (Some _) => true
  | _ => false
  end.

(** [true] when the calls contain a [startSpeaking] that took effect and
    no [stopTracking] took effect after the last such one. *)
Definition noStopSinceStart (calls : list Call) : bool :=
  foldl (fun speaking c =>
           if startsTurn c then true
           else if stopsTurn c then false
           else speaking)
        false calls.

Definition isRemove (c : Call) : bool :=
  match c with CallRemove _ => true | _ => false end.

(** ** Ordinary names

    A property read [parties[name]] also finds what the parties object
    inherits: for the names below it yields a member of
    [Object.prototype] although the object has no such key of its own,
    and an assignment to ["__proto__"] replaces the prototype instead of
    adding a key.  The white space that [trim] removes includes
    characters outside ASCII.  The operations above embed the code for
    names that are ASCII strings other than these property names; the
    properties that depend on it state so. *)

Definition objectPrototypeKeys : list string :=
  ["constructor"; "hasOwnProperty"; "isPrototypeOf"; "propertyIsEnumerable";
   "toLocaleString"; "toString"; "valueOf"; "__proto__";
   "__defineGetter__"; "__defineSetter__"; "__lookupGetter__";
   "__lookupSetter__"].

Definition inheritedKey (name : string) : bool :=
  existsb (String.eqb name) objectPrototypeKeys.

Fixpoint isAscii (s : string) : bool :=
  match s with
  | EmptyString => true
  | String c rest => Nat.ltb (nat_of_ascii c) 128 && isAscii rest
  end.

Definition ordinaryName (name : string) : bool :=
  isAscii name && negb (inheritedKey name).

(** The names that a call registers or makes the speaker. *)
Definition ordinaryCall (c : Call) : bool :=
  match c with
  | CallStart (JString name) _ => ordinaryName name
  | CallAdd (JString name) => ordinaryName name
  | _ => true
  end.

(** A name whose property key is the one computed by [toPropertyKey]
    and that an assignment adds as a key: not ["__proto__"], and a
    number only within [Number.MAX_SAFE_INTEGER], where its numeral has
    all the digits. *)
Definition plainKey (party : JsVal) : bool :=
  negb (String.eqb (toPropertyKey party) "__proto__")
  && match party with
     | JNumber (Fin z) => Z.leb (Z.abs z) maxSafeInteger
     | _ => true
     end.

Definition ordinaryNames (names : option (list JsVal)) : bool :=
  forallb (fun party => ordinaryName (toPropertyKey party))
    (default defaultParties names).

Definition ordinarySession (names : option (list JsVal)) (calls : list Call)
  : bool :=
  ordinaryNames names && forallb ordinaryCall calls.

(** ** Derived quantities of a state *)

Definition sumDurations (l : list Segment) : Z :=
  foldr (fun s acc => seg_duration s + acc) 0 l.


(** Both references of a state point into the store. *)
Definition live (h : Heap) (s : State) : Prop :=
  (parties s < length (objects h))%nat /\ (timeline s < length (arrays h))%nat.

(** A property of the parties and the timeline that a state refers to. *)
Definition holdsOn (P : gmap string Participant -> list TimelineEntry -> Prop)
  (h : Heap) (s : State) : Prop :=
  live h s /\ P (partiesAt h (parties s)) (timelineAt h (timeline s)).

(** The parties after [if (!parties[name]) parties[name] = {...}]. *)
Definition registered (name : string) (m : gmap string Participant)
  : gmap string Participant :=
  match m !! name with
  | Some _ => m
  | None => <[name := newParticipant]> m
  end.

(** The record of a participant after one more turn, and the matching
    timeline entry (the values built by [finalizeTurn]). *)
Definition closeTurn (p : Participant) (start : option Z) (now : Z)
  : Participant :=
  mkParticipant (totalTime p + (now - toNumber start))
    (segments p ++ [mkSegment start now (now - toNumber start)]).

Definition turnEntry (speaker : string) (start : option Z) (now : Z)
  : TimelineEntry :=
  mkTimelineEntry speaker start now (now - toNumber start).

(** Zero-padded two-digit rendering of a number below one hundred. *)
Definition twoDigits (d : Z) : string :=
  String (digitChar (d / 10)) (String (digitChar (d mod 10)) EmptyString).

Definition isDigit (c : ascii) : bool :=
  Nat.leb 48 (nat_of_ascii c) && Nat.leb (nat_of_ascii c) 57.

(** ** The states that [startSpeaking] and [stopTracking] build
    (lines 103-108 and 160-166) *)

Definition startedState (s : State) (name : string) (now : Z) : State :=
  mkState (parties s) (Some name) (Some now)
    (if negb (truthyTime (hearingStartTime s)) then Some now
     else hearingStartTime s)
    (hearingEndTime s)
    (if negb (truthyTime (hearingStartTime s)) then true else isActive s)
    false
    (timeline s).

Definition stoppedState (s : State) (now : Z) : State :=
  mkState (parties s) None None (hearingStartTime s) (Some now)
    false true (timeline s).

(** What the turn-closing block of a call at [now] does to the parties
    [m] and the timeline [t]: nothing, or one more turn for the current
    speaker.  [next] is the party that starts speaking ([None] for
    [stopTracking], which also asks for a truthy [startTime]). *)
Definition turnClosed (s : State) (next : option string) (now : Z)
  (m : gmap string Participant) (t : list TimelineEntry)
  (m1 : gmap string Participant) (t1 : list TimelineEntry) : Prop :=
  (m1 = m /\ t1 = t)
  \/ exists cs p,
       currentSpeaker s = Some cs /\ cs <> "" /\ next <> Some cs
       /\ (next = None -> truthyTime (startTime s) = true)
       /\ m !! cs = Some p
       /\ m1 = <[cs := closeTurn p (startTime s) now]> m
       /\ t1 = (t ++ [turnEntry cs (startTime s) now])%list.

(** The effect of one call on the state, the parties and the timeline. *)
Definition callEffect (c : Call) (s : State)
  (m : gmap string Participant) (t : list TimelineEntry)
  (s' : State) (m' : gmap string Participant) (t' : list TimelineEntry)
  : Prop :=
  (s' = s /\ m' = m /\ t' = t)
  \/ match c with
     | CallStart (JString name) (Some now) =>
         name <> "" /\ s' = startedState s name now
         /\ exists m1, turnClosed s (Some name) now m t m1 t'
                       /\ m' = registered name m1
     | CallStop (Some now) =>
         s' = stoppedState s now /\ turnClosed s None now m t m' t'
     | CallAdd (JString name) =>
         s' = s /\ t' = t /\ trim name <> "" /\ m !! name = None
         /\ m' = <[name := newParticipant]> m
     | CallRemove partyName =>
         s' = s /\ t' = t /\ speakerIs (currentSpeaker s) partyName = false
         /\ m' = delete (toPropertyKey partyName) m
     | _ => False
     end.

(** The clock readings of the calls that take effect, in order. *)
Definition readings (calls : list Call) : list Z :=
  flat_map (fun c => match c with
                     | CallStart _ (Some now) | CallStop (Some now) =>
                         if startsTurn c || stopsTurn c then [now] else []
                     | _ => []
                     end) calls.

Fixpoint nondecreasing (l : list Z) : bool :=
  match l with
  | a :: rest =>
      match rest with
      | b :: _ => Z.leb a b && nondecreasing rest
      | [] => true
      end
  | [] => true
  end.

(** Start and end of every timeline entry, in timeline order. *)
Definition timesOf (t : list TimelineEntry) : list Z :=
  flat_map (fun e => [toNumber (tl_start e); tl_end e]) t.

(** The segment that was pushed together with a timeline entry, and the
    turns of one party in the timeline. *)
Definition entrySegment (e : TimelineEntry) : Segment :=
  mkSegment (tl_start e) (tl_end e) (tl_duration e).

Definition turnsOf (name : string) (t : list TimelineEntry) : list Segment :=
  map entrySegment (List.filter (fun e => String.eqb (tl_party e) name) t).


(** A call other than a [removeParty] with a name that is not a string. *)
Definition removesByName (c : Call) : bool :=
  match c with
  | CallRemove (JString _) => true
  | CallRemove _ => false
  | _ => true
  end.

(** ** The tracker component (the caller of the operations)

    [getTotalHearingTime], [handleAddParty] and [handleReset] of the
    [SpeakingTimeTracker] component.  [currentTime] is the component's
    timer value and [now] the clock reading.  [Object.keys] enumerates
    the keys of the parties in an order that the store does not keep; it
    is an argument. *)

Definition firstTruthy (a : option Z) (b c : Z) : Z :=
  if truthyTime a then toNumber a
  else if negb (Z.eqb b 0) then b else c.

Definition getTotalHearingTime (s : State) (currentTime now : Z) : string :=
  if truthyTime (hearingStartTime s) then
    let endTime := firstTruthy (hearingEndTime s) currentTime now in
    formatTime (MsNum (Fin (endTime - toNumber (hearingStartTime s))))
  else "0:00".

Definition handleAddParty (s : State) (newPartyName : string) (h : Heap)
  : Heap * State :=
  if negb (String.eqb (trim newPartyName) "") then
    addParty (Some s) (JString (trim newPartyName)) h
  else (h, s).

Definition handleReset (keys : list string) (h : Heap) : Heap * State :=
  initializeSpeakingTime (Some (JString <$> keys)) h.

(** ** [formatDuration] of the audio recorder
    ([src/utils/audioRecorder.js], lines 51-55) and of the deposition
    mode ([src/components/DepositionMode.js], lines 19-27), on a whole
    number of seconds (exact up to [maxSafeInteger]). *)

Definition formatDuration (seconds : Z) : string :=
  let mins := seconds / 60 in
  let secs := Z.rem seconds 60 in
  intToString mins +:+ ":" +:+ padStart (intToString secs) 2 "0".

Definition depositionFormatDuration (seconds : Z) : string :=
  let hrs := seconds / 3600 in
  let mins := Z.rem seconds 3600 / 60 in
  let secs := Z.rem seconds 60 in
  if Z.ltb 0 hrs then
    intToString hrs +:+ ":" +:+ padStart (intToString mins) 2 "0" +:+ ":"
    +:+ padStart (intToString secs) 2 "0"
  else
    intToString mins +:+ ":" +:+ padStart (intToString secs) 2 "0".

(** ** [generateChartData] (lines 323-367)

    [keys] is the order in which [Object.keys] and [Object.values]
    enumerate the parties of the statistics (the store does not keep
    it): the labels are the keys and the data are the total times, in
    that order.  The colours are a fixed list. *)

Record ChartData := mkChartData {
  labels : list string;
  data : list Z;
  backgroundColor : list string;
  borderWidth : Z;
  borderColor : string
}.

Definition palette : list string :=
  ["#e74c3c"; "#3498db"; "#95a5a6"; "#f39c12"; "#9b59b6"; "#1abc9c"].

Definition generateChartData (keys : list string) (state : option State)
  (h : Heap) : ChartData :=
  match state with
  | None => mkChartData [] [] [] 2 "#fff"
  | Some _ =>
      let stats := calculateStatistics state h in
      mkChartData keys
        (omap (fun k => ps_totalTime <$> statsParties stats !! k) keys)
        palette 2 "#fff"
  end.

(** * Properties *)

(** ** The time formatter *)

Example formatTime_90s : formatTime (MsNum (Fin 90000)) = "1:30".
Proof. reflexivity. Qed.

Example formatTime_day : formatTime (MsNum (Fin 86400000)) = "24:00:00".
Proof. reflexivity. Qed.

Example formatTime_infinite :
  formatTime (MsNum (Inf false)) = "Infinity:NaN:NaN".
Proof. reflexivity. Qed.


Lemma digitChar_isDigit d : 0 <= d <= 9 -> isDigit (digitChar d) = true.
Proof.
  intros Hd.
  assert (Hc : d = 0 \/ d = 1 \/ d = 2 \/ d = 3 \/ d = 4 \/ d = 5 \/ d = 6
               \/ d = 7 \/ d = 8 \/ d = 9) by lia.
  repeat destruct Hc as [-> | Hc]; try subst d; reflexivity.
Qed.



Lemma padStart_twoDigits_upto :
  forallb (fun n => String.eqb (padStart (intToString (Z.of_nat n)) 2 "0")
                               (twoDigits (Z.of_nat n)))
          (seq 0 100) = true.
Proof. vm_compute. reflexivity. Qed.

Lemma padStart_twoDigits d :
  0 <= d < 100 -> padStart (intToString d) 2 "0" = twoDigits d.
Proof.
  intros Hd.
  pose proof padStart_twoDigits_upto as H.
  rewrite forallb_forall in H.
  specialize (H (Z.to_nat d)).
  rewrite Z2Nat.id in H by lia.
  apply String.eqb_eq, H, in_seq. lia.
Qed.

Lemma twoDigits_shape d :
  0 <= d < 100 ->
  exists a b, twoDigits d = String a (String b EmptyString)
              /\ isDigit a = true /\ isDigit b = true.
Proof.
  intros Hd. exists (digitChar (d / 10)), (digitChar (d mod 10)).
  split; [reflexivity|].
  split; apply digitChar_isDigit.
  - split; [apply Z.div_pos; lia | apply Z.lt_succ_r, Z.div_lt_upper_bound; lia].
  - pose proof (Z.mod_pos_bound d 10). lia.
Qed.

Lemma formatTime_under_hour ms :
  0 <= ms < 3600000 ->
  formatTime (MsNum (Fin ms))
  = intToString (ms / 60000) +:+ ":" +:+ twoDigits ((ms / 1000) mod 60).
Proof.
  intros Hms. unfold formatTime. cbn [isNaN ltZero floorDiv gtZero jsRem].
  destruct (Z.ltb_spec ms 0) as [?|_]; [lia|].
  rewrite !Z.div_div by lia.
  change (1000 * (60 * 60)) with 3600000. change (1000 * 60) with 60000.
  rewrite (Z.div_small ms 3600000) by lia. cbn [Z.ltb Z.compare].
  assert (Hs : 0 <= ms / 1000) by (apply Z.div_pos; lia).
  rewrite Z.rem_mod_nonneg by lia.
  cbn [numberToString]. rewrite padStart_twoDigits; [reflexivity|].
  pose proof (Z.mod_pos_bound (ms / 1000) 60). lia.
Qed.

Lemma formatTime_hours ms :
  3600000 <= ms <= maxSafeInteger ->
  formatTime (MsNum (Fin ms))
  = intToString (ms / 3600000) +:+ ":" +:+ twoDigits ((ms / 60000) mod 60)
    +:+ ":" +:+ twoDigits ((ms / 1000) mod 60).
Proof.
  intros [Hms _]. unfold formatTime. cbn [isNaN ltZero floorDiv gtZero jsRem].
  destruct (Z.ltb_spec ms 0) as [?|_]; [lia|].
  rewrite !Z.div_div by lia.
  change (1000 * (60 * 60)) with 3600000. change (1000 * 60) with 60000.
  assert (Hh : 0 < ms / 3600000) by (apply Z.div_str_pos; lia).
  destruct (Z.ltb_spec 0 (ms / 3600000)) as [_|?]; [|lia].
  assert (Hs : 0 <= ms / 1000) by (apply Z.div_pos; lia).
  assert (Hm : 0 <= ms / 60000) by (apply Z.div_pos; lia).
  rewrite !Z.rem_mod_nonneg by lia.
  cbn [numberToString]. rewrite !padStart_twoDigits; [reflexivity| |].
  - pose proof (Z.mod_pos_bound (ms / 1000) 60). lia.
  - pose proof (Z.mod_pos_bound (ms / 60000) 60). lia.
Qed.




(** ** The store *)

Lemma partiesAt_writeParties h r m :
  (r < length (objects h))%nat -> partiesAt (writeParties h r m) r = m.
Proof.
  intros Hr. unfold partiesAt, writeParties. cbn [objects].
  by rewrite list_lookup_insert_eq.
Qed.

Lemma partiesAt_writeTimeline h r t r' :
  partiesAt (writeTimeline h r t) r' = partiesAt h r'.
Proof. reflexivity. Qed.

Lemma timelineAt_writeTimeline h r t :
  (r < length (arrays h))%nat -> timelineAt (writeTimeline h r t) r = t.
Proof.
  intros Hr. unfold timelineAt, writeTimeline. cbn [arrays].
  by rewrite list_lookup_insert_eq.
Qed.

Lemma timelineAt_writeParties h r m r' :
  timelineAt (writeParties h r m) r' = timelineAt h r'.
Proof. reflexivity. Qed.

Lemma live_writeParties h r m s : live h s -> live (writeParties h r m) s.
Proof.
  unfold live, writeParties. cbn [objects arrays].
  by rewrite length_insert.
Qed.

Lemma live_writeTimeline h r t s : live h s -> live (writeTimeline h r t) s.
Proof.
  unfold live, writeTimeline. cbn [objects arrays].
  by rewrite length_insert.
Qed.

Lemma finalizeTurn_parties h st cs p now :
  live h st ->
  partiesAt (finalizeTurn h st cs p now) (parties st)
  = <[cs := closeTurn p (startTime st) now]> (partiesAt h (parties st)).
Proof.
  intros [Hp _]. unfold finalizeTurn.
  rewrite partiesAt_writeTimeline.
  by rewrite partiesAt_writeParties.
Qed.

Lemma finalizeTurn_timeline h st cs p now :
  live h st ->
  timelineAt (finalizeTurn h st cs p now) (timeline st)
  = (timelineAt h (timeline st) ++ [turnEntry cs (startTime st) now])%list.
Proof.
  intros Hl. unfold finalizeTurn.
  rewrite timelineAt_writeTimeline.
  - by rewrite timelineAt_writeParties.
  - destruct Hl as [_ Ht]. exact Ht.
Qed.

Lemma live_finalizeTurn h st cs p now s :
  live h s -> live (finalizeTurn h st cs p now) s.
Proof.
  intros Hl. unfold finalizeTurn.
  by apply live_writeTimeline, live_writeParties.
Qed.

Lemma live_initializeSpeakingTime names h0 h s :
  initializeSpeakingTime names h0 = (h, s) -> live h s.
Proof.
  unfold initializeSpeakingTime, allocParties, allocTimeline.
  intros [= <- <-]. unfold live. cbn [objects arrays parties timeline].
  rewrite !length_app. simpl. lia.
Qed.

(** ** Every call returns a state when it is given one *)

Lemma call_returns c s h :
  exists h' s', call c (Some s) h = (h', Returns (Some s')).
Proof.
  destruct c as [party clock | clock | name | name]; cbn [call].
  - destruct (startSpeaking (Some s) party clock h) as [h' s']. eauto.
  - destruct (stopTracking (Some s) clock h) as [h' s']. eauto.
  - destruct (addParty (Some s) name h) as [h' s']. eauto.
  - cbn [removeParty]. destruct (speakerIs _ _); eauto.
Qed.

Lemma runCalls_returns calls : forall s h,
  exists h' s', runCalls calls (Some s) h = (h', Returns (Some s')).
Proof.
  induction calls as [|c rest IH]; intros s h; cbn [runCalls].
  - eauto.
  - destruct (call_returns c s h) as (h1 & s1 & ->). apply IH.
Qed.

Lemma session_returns names calls :
  exists h s, session names calls = (h, Returns (Some s)).
Proof.
  unfold session.
  destruct (initializeSpeakingTime names emptyHeap) as [h0 s0].
  apply runCalls_returns.
Qed.

(** ** Properties of the ledger that every call preserves

    A property of the parties and the timeline is preserved by the
    calls as soon as it is preserved by the three writes they are made
    of: closing a turn, registering a participant, and (for
    [removeParty]) deleting one. *)

Section Preservation.

Variable P : gmap string Participant -> list TimelineEntry -> Prop.
Variable removes : bool.

Hypothesis P_turn : forall m t cs p start now,
  m !! cs = Some p -> P m t ->
  P (<[cs := closeTurn p start now]> m) (t ++ [turnEntry cs start now])%list.

Hypothesis P_register : forall m t name,
  m !! name = None -> P m t -> P (<[name := newParticipant]> m) t.

Hypothesis P_delete : removes = true ->
  forall m t name, P m t -> P (delete name m) t.

Lemma holdsOn_refs h s s' :
  parties s' = parties s -> timeline s' = timeline s ->
  holdsOn P h s -> holdsOn P h s'.
Proof. unfold holdsOn, live. by intros -> ->. Qed.

Lemma holdsOn_finalizeTurn h st cs p now :
  holdsOn P h st -> partiesAt h (parties st) !! cs = Some p ->
  holdsOn P (finalizeTurn h st cs p now) st.
Proof.
  intros [Hl HP] Hcs. split; [by apply live_finalizeTurn|].
  rewrite finalizeTurn_parties, finalizeTurn_timeline by done.
  by apply P_turn.
Qed.

Lemma holdsOn_register h st name :
  holdsOn P h st -> partiesAt h (parties st) !! name = None ->
  holdsOn P (writeParties h (parties st)
               (<[name := newParticipant]> (partiesAt h (parties st)))) st.
Proof.
  intros [Hl HP] Hn. split; [by apply live_writeParties|].
  rewrite partiesAt_writeParties by apply Hl.
  rewrite timelineAt_writeParties. by apply P_register.
Qed.

Lemma startSpeaking_preserves h s party clock h' s' :
  holdsOn P h s -> startSpeaking (Some s) party clock h = (h', s') ->
  holdsOn P h' s'.
Proof.
  intros H. cbn [startSpeaking].
  destruct (negb (truthy party) || negb (isString party));
    [by intros [= <- <-]|].
  destruct clock as [now|]; [|by intros [= <- <-]].
  set (h1 := match currentSpeaker s with Some _ => _ | None => _ end).
  assert (H1 : holdsOn P h1 s).
  { subst h1. destruct (currentSpeaker s) as [cs|]; [|done].
    destruct (truthyName (Some cs) && negb (String.eqb cs (toPropertyKey party)));
      [|done].
    destruct (partiesAt h (parties s) !! cs) as [p|] eqn:Hcs; [|done].
    by apply holdsOn_finalizeTurn. }
  clearbody h1.
  destruct (partiesAt h1 (parties s) !! toPropertyKey party) eqn:Hn;
    intros [= <- <-].
  - by apply (holdsOn_refs h1 s).
  - apply (holdsOn_refs _ s); [done..|]. by apply holdsOn_register.
Qed.

Lemma stopTracking_preserves h s clock h' s' :
  holdsOn P h s -> stopTracking (Some s) clock h = (h', s') ->
  holdsOn P h' s'.
Proof.
  intros H. cbn [stopTracking].
  destruct clock as [now|]; [|by intros [= <- <-]].
  intros [= <- <-]. apply (holdsOn_refs _ s); [done..|].
  destruct (currentSpeaker s) as [cs|]; [|done].
  match goal with |- context [if ?b then _ else _] => destruct b end;
    [|done].
  destruct (partiesAt h (parties s) !! cs) as [p|] eqn:Hcs; [|done].
  by apply holdsOn_finalizeTurn.
Qed.

Lemma addParty_preserves h s name h' s' :
  holdsOn P h s -> addParty (Some s) name h = (h', s') ->
  holdsOn P h' s'.
Proof.
  intros H. cbn [addParty].
  destruct (rejectedName name); [by intros [= <- <-]|].
  destruct (partiesAt h (parties s) !! toPropertyKey name) eqn:Hn;
    intros [= <- <-]; [done|].
  by apply holdsOn_register.
Qed.

Lemma removeParty_preserves h s name h' s' :
  removes = true ->
  holdsOn P h s -> removeParty (Some s) name h = (h', Returns (Some s')) ->
  holdsOn P h' s'.
Proof.
  intros Hr [Hl HP]. cbn [removeParty].
  destruct (speakerIs (currentSpeaker s) name); intros [= <- <-]; [done|].
  split; [by apply live_writeParties|].
  rewrite partiesAt_writeParties by apply Hl.
  rewrite timelineAt_writeParties. by apply P_delete.
Qed.

Lemma call_preserves c h s h' s' :
  (isRemove c = true -> removes = true) ->
  holdsOn P h s -> call c (Some s) h = (h', Returns (Some s')) ->
  holdsOn P h' s'.
Proof.
  intros Hc H. destruct c as [party clock | clock | name | name]; cbn [call].
  - destruct (startSpeaking (Some s) party clock h) as [h1 s1] eqn:E.
    intros [= <- <-]. by eapply startSpeaking_preserves.
  - destruct (stopTracking (Some s) clock h) as [h1 s1] eqn:E.
    intros [= <- <-]. by eapply stopTracking_preserves.
  - destruct (addParty (Some s) name h) as [h1 s1] eqn:E.
    intros [= <- <-]. by eapply addParty_preserves.
  - intros E. eapply removeParty_preserves; [by apply Hc|done..].
Qed.

Lemma runCalls_preserves calls : forall h s h' s',
  forallb (fun c => implb (isRemove c) removes) calls = true ->
  holdsOn P h s -> runCalls calls (Some s) h = (h', Returns (Some s')) ->
  holdsOn P h' s'.
Proof.
  induction calls as [|c rest IH]; intros h s h' s' Hall H; cbn [runCalls].
  - by intros [= <- <-].
  - cbn [forallb] in Hall. apply andb_prop in Hall as [Hc Hrest].
    destruct (call_returns c s h) as (h1 & s1 & E). rewrite E.
    apply IH; [done|].
    eapply call_preserves; [|done..].
    intros Hrm. by rewrite Hrm in Hc.
Qed.

End Preservation.

(** ** Sums over the parties object *)

Lemma sumValues_empty f : sumValues f ∅ = 0.
Proof. unfold sumValues. by rewrite map_fold_empty. Qed.

Lemma sumValues_insert_None f (m : gmap string Participant) k v :
  m !! k = None -> sumValues f (<[k := v]> m) = sumValues f m + f v.
Proof.
  intros Hk. unfold sumValues.
  rewrite map_fold_insert_L; [done| |done].
  intros. lia.
Qed.

Lemma sumValues_delete f (m : gmap string Participant) k v :
  m !! k = Some v -> sumValues f m = sumValues f (delete k m) + f v.
Proof.
  intros Hk. unfold sumValues.
  rewrite (map_fold_delete_L _ _ k v m); [done| |done].
  intros. lia.
Qed.

Lemma sumValues_insert_Some f (m : gmap string Participant) k v old :
  m !! k = Some old ->
  sumValues f (<[k := v]> m) = sumValues f m - f old + f v.
Proof.
  intros Hk. rewrite <- insert_delete_eq.
  rewrite sumValues_insert_None by apply lookup_delete_eq.
  rewrite (sumValues_delete f m k old Hk). lia.
Qed.

Lemma sumValues_zero f (m : gmap string Participant) :
  (forall k v, m !! k = Some v -> f v = 0) -> sumValues f m = 0.
Proof.
  induction m as [|k v m Hk IH] using map_ind; intros Hall.
  - apply sumValues_empty.
  - rewrite sumValues_insert_None by done.
    rewrite IH.
    + rewrite (Hall k v); [lia|]. apply lookup_insert_eq.
    + intros k' v' Hk'. apply (Hall k').
      rewrite lookup_insert_ne; [done|]. congruence.
Qed.


Lemma sumDurations_snoc l x :
  sumDurations (l ++ [x]) = sumDurations l + seg_duration x.
Proof.
  unfold sumDurations. induction l as [|y l IH]; simpl; lia.
Qed.

(** ** Fresh states *)

Lemma initial_parties_new names : forall (acc : gmap string Participant),
  (forall k v, acc !! k = Some v -> v = newParticipant) ->
  forall k v,
    foldl (fun acc party => <[toPropertyKey party := newParticipant]> acc)
          acc names !! k = Some v ->
    v = newParticipant.
Proof.
  induction names as [|n names IH]; intros acc Hacc k v; cbn [foldl].
  - apply Hacc.
  - apply IH. intros k' v'.
    destruct (decide (toPropertyKey n = k')) as [->|Hne].
    + rewrite lookup_insert_eq. congruence.
    + rewrite lookup_insert_ne by done. apply Hacc.
Qed.

Lemma initializeSpeakingTime_view names h0 h s :
  initializeSpeakingTime names h0 = (h, s) ->
  live h s
  /\ (forall k v, partiesAt h (parties s) !! k = Some v -> v = newParticipant)
  /\ timelineAt h (timeline s) = []
  /\ currentSpeaker s = None /\ startTime s = None
  /\ hearingStartTime s = None /\ hearingEndTime s = None
  /\ isActive s = false /\ isPaused s = false.
Proof.
  intros E. split; [by eapply live_initializeSpeakingTime|].
  revert E. unfold initializeSpeakingTime, allocParties, allocTimeline.
  intros [= <- <-]. cbn.
  split.
  - unfold partiesAt. cbn [objects].
    rewrite lookup_app_r, Nat.sub_diag by lia. cbn [lookup list_lookup default].
    apply initial_parties_new. intros k v. by rewrite lookup_empty.
  - split; [|done].
    unfold timelineAt. cbn [arrays].
    by rewrite lookup_app_r, Nat.sub_diag by lia.
Qed.

Lemma forallb_implb_true {A} (f : A -> bool) l :
  forallb (fun c => implb (f c) true) l = true.
Proof.
  induction l as [|x l IH]; cbn [forallb]; [done|].
  rewrite IH. by destruct (f x).
Qed.

Lemma forallb_implb_false {A} (f : A -> bool) l :
  forallb (fun c => negb (f c)) l = true ->
  forallb (fun c => implb (f c) false) l = true.
Proof.
  induction l as [|x l IH]; cbn [forallb]; [done|].
  intros [Hx Hl]%andb_prop. rewrite IH by done. by destruct (f x).
Qed.

(** ** The ledger invariants *)

(** C6: in every state that a session reaches, the total time of each
    participant is the sum of the durations of that participant's
    segments. *)
Theorem totalTime_is_sum_of_durations names calls h s name p :
  session names calls = (h, Returns (Some s)) ->
  partiesAt h (parties s) !! name = Some p ->
  totalTime p = sumDurations (segments p).
Proof.
  unfold session.
  destruct (initializeSpeakingTime names emptyHeap) as [h0 s0] eqn:E0.
  intros Hrun.
  pose (P := fun (m : gmap string Participant) (_ : list TimelineEntry) =>
               forall k v, m !! k = Some v ->
                           totalTime v = sumDurations (segments v)).
  cut (holdsOn P h s); [intros [_ HP]; apply HP|].
  eapply (runCalls_preserves P true); [| | |apply forallb_implb_true| |exact Hrun].
  - intros m t cs q start now Hcs HP k v.
    destruct (decide (cs = k)) as [->|Hne].
    + rewrite lookup_insert_eq. intros [= <-].
      cbn [closeTurn totalTime segments].
      rewrite sumDurations_snoc, <- (HP k q Hcs). done.
    + rewrite lookup_insert_ne by done. apply HP.
  - intros m t k0 Hk0 HP k v.
    destruct (decide (k0 = k)) as [->|Hne].
    + rewrite lookup_insert_eq. by intros [= <-].
    + rewrite lookup_insert_ne by done. apply HP.
  - intros _ m t k0 HP k v Hk.
    apply lookup_delete_Some in Hk as [_ Hk]. by eapply HP.
  - apply initializeSpeakingTime_view in E0 as (Hl & Hnew & _).
    split; [done|]. intros k v Hk. by rewrite (Hnew k v Hk).
Qed.

Lemma totalTime_is_sum_of_durations_witness :
  exists h s p,
    session None [CallStart (JString "State") (Some 1000);
                  CallStart (JString "Defense") (Some 4000);
                  CallStop (Some 9000)] = (h, Returns (Some s))
    /\ partiesAt h (parties s) !! "State" = Some p
    /\ totalTime p = 3000
    /\ totalTime p = sumDurations (segments p).
Proof.
  eexists _, _, _.
  split; [vm_compute; reflexivity|].
  split; [vm_compute; reflexivity|].
  split; [reflexivity|].
  eapply (totalTime_is_sum_of_durations None
            [CallStart (JString "State") (Some 1000);
             CallStart (JString "Defense") (Some 4000);
             CallStop (Some 9000)] _ _ "State");
    vm_compute; reflexivity.
Defined.




(** ** Writes that reach the caller's state *)

(** C1: the four operations copy the state object but not the objects it
    refers to, so the parties and the timeline of the input state change
    under the caller.  After [startSpeaking] the input's participant has
    gained time and a segment and its timeline an entry; likewise after
    [stopTracking]; after [addParty] the input's parties hold the new
    name; after [removeParty] they have lost the removed one. *)
Theorem operations_write_through_input :
  (let '(h0, s0) := initializeSpeakingTime (Some [JString "State"]) emptyHeap in
   let '(h1, s1) := startSpeaking (Some s0) (JString "State") (Some 1000) h0 in
   let '(h2, _) := startSpeaking (Some s1) (JString "Defense") (Some 6000) h1 in
   let '(h3, _) := stopTracking (Some s1) (Some 8000) h1 in
   partiesAt h1 (parties s1) !! "State" = Some (mkParticipant 0 [])
   /\ timelineAt h1 (timeline s1) = []
   /\ partiesAt h2 (parties s1) !! "State"
      = Some (mkParticipant 5000 [mkSegment (Some 1000) 6000 5000])
   /\ timelineAt h2 (timeline s1)
      = [mkTimelineEntry "State" (Some 1000) 6000 5000]
   /\ partiesAt h3 (parties s1) !! "State"
      = Some (mkParticipant 7000 [mkSegment (Some 1000) 8000 7000])
   /\ timelineAt h3 (timeline s1)
      = [mkTimelineEntry "State" (Some 1000) 8000 7000])
  /\ (let '(h0, s0) := initializeSpeakingTime (Some [JString "State"]) emptyHeap in
      let '(h1, _) := addParty (Some s0) (JString "Defense") h0 in
      partiesAt h0 (parties s0) !! "Defense" = None
      /\ partiesAt h1 (parties s0) !! "Defense" = Some newParticipant)
  /\ (let '(h0, s0) := initializeSpeakingTime
                         (Some [JString "State"; JString "Court"]) emptyHeap in
      let '(h1, _) := removeParty (Some s0) (JString "Court") h0 in
      partiesAt h0 (parties s0) !! "Court" = Some newParticipant
      /\ partiesAt h1 (parties s0) !! "Court" = None).
Proof. vm_compute. repeat split; reflexivity. Qed.

(** ** Restarting after a stop *)

(** C2: a [startSpeaking] that follows a [stopTracking] sets the current
    speaker but leaves [isActive] false, because the flag is only set
    together with the hearing start time. *)
Theorem restart_leaves_inactive :
  exists h s,
    session None [CallStart (JString "State") (Some 1000);
                  CallStop (Some 2000);
                  CallStart (JString "Defense") (Some 3000)]
    = (h, Returns (Some s))
    /\ noStopSinceStart [CallStart (JString "State") (Some 1000);
                         CallStop (Some 2000);
                         CallStart (JString "Defense") (Some 3000)] = true
    /\ currentSpeaker s = Some "Defense"
    /\ isActive s = false.
Proof.
  eexists _, _. split; [vm_compute; reflexivity|].
  repeat split; reflexivity.
Qed.

(** ** Clicking the speaker who is already speaking *)

(** C4: when the current speaker is named again after the clock has
    advanced, no time, segment or timeline entry is added, but
    [startTime] moves to the new clock reading. *)
Theorem same_speaker_resets_startTime :
  let '(h0, s0) := initializeSpeakingTime (Some [JString "State"]) emptyHeap in
  let '(h1, s1) := startSpeaking (Some s0) (JString "State") (Some 1000) h0 in
  let '(h2, s2) := startSpeaking (Some s1) (JString "State") (Some 6000) h1 in
  currentSpeaker s1 = Some "State"
  /\ startTime s1 = Some 1000
  /\ startTime s2 = Some 6000
  /\ partiesAt h2 (parties s2) = partiesAt h1 (parties s1)
  /\ timelineAt h2 (timeline s2) = timelineAt h1 (timeline s1).
Proof. vm_compute. repeat split; reflexivity. Qed.

(** ** Absent state *)

(** C5: [removeParty] has no guard for an absent state; with any name
    other than [undefined] it raises. *)
Theorem removeParty_absent_state_throws :
  removeParty None (JString "Court") emptyHeap = (emptyHeap, Throws)
  /\ removeParty None JNull emptyHeap = (emptyHeap, Throws).
Proof. split; reflexivity. Qed.

(** ** A session that starts at clock reading zero *)

(** C7: with the first call at time 0, the second [startSpeaking] takes
    the hearing start time to be unset and overwrites it, so the hearing
    is reported as 3 ms long instead of 8. *)
Theorem round_trip_from_time_zero :
  exists h s,
    session (Some [JString "State"; JString "Defense"])
      [CallStart (JString "State") (Some 0);
       CallStart (JString "Defense") (Some 5);
       CallStop (Some 8)] = (h, Returns (Some s))
    /\ totalHearingTime (calculateStatistics (Some s) h) = 3
    /\ totalSpeakingTime (calculateStatistics (Some s) h) = 8
    /\ statsParties (calculateStatistics (Some s) h) !! "State"
       = Some (mkPartyStats 5 1 5)
    /\ statsParties (calculateStatistics (Some s) h) !! "Defense"
       = Some (mkPartyStats 3 1 3).
Proof.
  eexists _, _. split; [vm_compute; reflexivity|].
  repeat split; vm_compute; reflexivity.
Qed.

(** What does hold of the speaker and the activity flag: the current
    speaker is set exactly when a [startSpeaking] took effect and no
    [stopTracking] took effect after it, and an active state always has
    a speaker. *)
Lemma call_speaker c h s h' s' :
  call c (Some s) h = (h', Returns (Some s')) ->
  if startsTurn c then is_Some (currentSpeaker s')
  else if stopsTurn c then currentSpeaker s' = None /\ isActive s' = false
  else currentSpeaker s' = currentSpeaker s /\ isActive s' = isActive s.
Proof.
  destruct c as [party clock | clock | name | name]; cbn [call].
  - cbn [startSpeaking startsTurn stopsTurn].
    destruct (truthy party), (isString party), clock as [now|];
      cbn [negb orb andb]; intros [= _ <-]; cbn; eauto.
  - cbn [stopTracking startsTurn stopsTurn].
    destruct clock as [now|]; intros [= _ <-]; cbn; eauto.
  - cbn [addParty startsTurn stopsTurn].
    destruct (rejectedName name); [by intros [= _ <-]|].
    destruct (partiesAt h (parties s) !! toPropertyKey name);
      by intros [= _ <-].
  - cbn [removeParty startsTurn stopsTurn].
    destruct (speakerIs (currentSpeaker s) name); by intros [= _ <-].
Qed.

Lemma runCalls_speaker calls : forall (b : bool) h s h' s',
  (is_Some (currentSpeaker s) <-> b = true) ->
  (isActive s = true -> is_Some (currentSpeaker s)) ->
  runCalls calls (Some s) h = (h', Returns (Some s')) ->
  (is_Some (currentSpeaker s')
   <-> foldl (fun speaking c =>
                if startsTurn c then true
                else if stopsTurn c then false
                else speaking) b calls = true)
  /\ (isActive s' = true -> is_Some (currentSpeaker s')).
Proof.
  induction calls as [|c rest IH]; intros b h s h' s' Hb Hact;
    cbn [runCalls foldl].
  - by intros [= <- <-].
  - destruct (call_returns c s h) as (h1 & s1 & E). rewrite E.
    apply call_speaker in E. apply IH.
    + destruct (startsTurn c); [done|].
      destruct (stopsTurn c); destruct E as [-> _]; [|done].
      split; [by intros [? ?]|done].
    + destruct (startsTurn c); [done|].
      destruct (stopsTurn c); destruct E as [E1 E2]; rewrite E1, E2; done.
Qed.

(** In a session over ordinary names the current speaker is set exactly
    when a [startSpeaking] took effect and no [stopTracking] took effect
    after it; an active state has a speaker. *)
Lemma speaker_tracks_calls names calls h s :
  ordinarySession names calls = true ->
  session names calls = (h, Returns (Some s)) ->
  (is_Some (currentSpeaker s) <-> noStopSinceStart calls = true)
  /\ (isActive s = true -> is_Some (currentSpeaker s)).
Proof.
  intros _. unfold session, noStopSinceStart.
  destruct (initializeSpeakingTime names emptyHeap) as [h0 s0] eqn:E0.
  apply initializeSpeakingTime_view in E0 as (_ & _ & _ & Hcs & _ & _ & _ & Ha & _).
  apply runCalls_speaker.
  - rewrite Hcs. split; [by intros [? ?]|done].
  - by rewrite Ha.
Qed.

(** What does hold when the current speaker is named again: the store is
    left as it is, and the new state is the old one with [startTime]
    set to the clock reading and [isPaused] cleared. *)
Lemma same_speaker_effect h s name now :
  currentSpeaker s = Some name -> name <> "" ->
  is_Some (partiesAt h (parties s) !! name) ->
  truthyTime (hearingStartTime s) = true ->
  startSpeaking (Some s) (JString name) (Some now) h
  = (h, mkState (parties s) (Some name) (Some now) (hearingStartTime s)
          (hearingEndTime s) (isActive s) false (timeline s)).
Proof.
  intros Hcs Hne [p Hp] Hh. cbn [startSpeaking truthy isString toPropertyKey].
  apply String.eqb_neq in Hne. rewrite Hne. cbn [negb orb].
  rewrite Hcs, String.eqb_refl. cbn [negb andb truthyName].
  rewrite Hne. cbn [negb andb]. rewrite Hp, Hh. reflexivity.
Qed.

(** ** The effect of single calls on a live state *)

Lemma register_step h s name :
  live h s ->
  let h' := match partiesAt h (parties s) !! name with
            | Some _ => h
            | None => writeParties h (parties s)
                        (<[name := newParticipant]> (partiesAt h (parties s)))
            end in
  live h' s
  /\ partiesAt h' (parties s) = registered name (partiesAt h (parties s))
  /\ timelineAt h' (timeline s) = timelineAt h (timeline s).
Proof.
  intros Hl. unfold registered.
  destruct (partiesAt h (parties s) !! name) eqn:E; cbn zeta.
  - done.
  - split; [by apply live_writeParties|].
    split; [|done]. apply partiesAt_writeParties, Hl.
Qed.

Lemma startSpeaking_idle h s name now h' s' :
  live h s -> currentSpeaker s = None -> name <> "" ->
  startSpeaking (Some s) (JString name) (Some now) h = (h', s') ->
  live h' s'
  /\ partiesAt h' (parties s') = registered name (partiesAt h (parties s))
  /\ timelineAt h' (timeline s') = timelineAt h (timeline s)
  /\ currentSpeaker s' = Some name /\ startTime s' = Some now
  /\ hearingStartTime s'
     = (if truthyTime (hearingStartTime s) then hearingStartTime s
        else Some now)
  /\ hearingEndTime s' = hearingEndTime s.
Proof.
  intros Hl Hcs Hne. cbn [startSpeaking truthy isString toPropertyKey].
  apply String.eqb_neq in Hne. rewrite Hne, Hcs. cbn [negb orb].
  intros [= <- <-]. cbn [parties timeline currentSpeaker startTime
                          hearingStartTime hearingEndTime].
  destruct (register_step h s name Hl) as (H1 & H2 & H3).
  split; [exact H1|]. split; [exact H2|]. split; [exact H3|].
  repeat split. by destruct (truthyTime (hearingStartTime s)).
Qed.

Lemma startSpeaking_switch h s cs p name now h' s' :
  live h s -> currentSpeaker s = Some cs -> cs <> "" -> cs <> name ->
  name <> "" -> partiesAt h (parties s) !! cs = Some p ->
  startSpeaking (Some s) (JString name) (Some now) h = (h', s') ->
  live h' s'
  /\ partiesAt h' (parties s')
     = registered name
         (<[cs := closeTurn p (startTime s) now]> (partiesAt h (parties s)))
  /\ timelineAt h' (timeline s')
     = (timelineAt h (timeline s) ++ [turnEntry cs (startTime s) now])%list
  /\ currentSpeaker s' = Some name /\ startTime s' = Some now
  /\ hearingStartTime s'
     = (if truthyTime (hearingStartTime s) then hearingStartTime s
        else Some now)
  /\ hearingEndTime s' = hearingEndTime s.
Proof.
  intros Hl Hcs Hcne Hdiff Hne Hp.
  cbn [startSpeaking truthy isString toPropertyKey].
  apply String.eqb_neq in Hne, Hcne, Hdiff.
  rewrite Hne, Hcs. cbn [negb orb truthyName].
  rewrite Hcne, Hdiff, Hp. cbn [negb andb].
  intros [= <- <-]. cbn [parties timeline currentSpeaker startTime
                          hearingStartTime hearingEndTime].
  assert (Hl1 : live (finalizeTurn h s cs p now) s)
    by by apply live_finalizeTurn.
  destruct (register_step _ s name Hl1) as (H1 & H2 & H3).
  split; [exact H1|].
  split; [etransitivity; [exact H2|]; by rewrite finalizeTurn_parties|].
  split; [etransitivity; [exact H3|]; by rewrite finalizeTurn_timeline|].
  repeat split. by destruct (truthyTime (hearingStartTime s)).
Qed.

Lemma stopTracking_speaking h s cs p now h' s' :
  live h s -> currentSpeaker s = Some cs -> cs <> "" ->
  truthyTime (startTime s) = true ->
  partiesAt h (parties s) !! cs = Some p ->
  stopTracking (Some s) (Some now) h = (h', s') ->
  live h' s'
  /\ partiesAt h' (parties s')
     = <[cs := closeTurn p (startTime s) now]> (partiesAt h (parties s))
  /\ timelineAt h' (timeline s')
     = (timelineAt h (timeline s) ++ [turnEntry cs (startTime s) now])%list
  /\ currentSpeaker s' = None /\ startTime s' = None
  /\ hearingStartTime s' = hearingStartTime s
  /\ hearingEndTime s' = Some now
  /\ isActive s' = false /\ isPaused s' = true.
Proof.
  intros Hl Hcs Hcne Hst Hp. cbn [stopTracking truthyName].
  apply String.eqb_neq in Hcne.
  rewrite Hcs, Hcne, Hst, Hp. cbn [negb andb].
  intros [= <- <-]. cbn [parties timeline currentSpeaker startTime
                          hearingStartTime hearingEndTime isActive isPaused].
  rewrite finalizeTurn_parties, finalizeTurn_timeline by done.
  split; [exact (live_finalizeTurn h s cs p now s Hl)|].
  repeat split.
Qed.

Lemma registered_lookup name (m : gmap string Participant) :
  (forall p, m !! name = Some p -> p = newParticipant) ->
  registered name m !! name = Some newParticipant.
Proof.
  intros H. unfold registered.
  destruct (m !! name) as [p|] eqn:E.
  - by rewrite E, (H p).
  - apply lookup_insert_eq.
Qed.

Lemma registered_lookup_ne name k (m : gmap string Participant) :
  name <> k -> registered name m !! k = m !! k.
Proof.
  intros H. unfold registered.
  destruct (m !! name); [done|]. by rewrite lookup_insert_ne.
Qed.

Lemma sumValues_registered f name (m : gmap string Participant) :
  f newParticipant = 0 -> sumValues f (registered name m) = sumValues f m.
Proof.
  intros H. unfold registered.
  destruct (m !! name) eqn:E; [done|].
  rewrite sumValues_insert_None by done. lia.
Qed.

(** ** The scripted round trip

    What does hold of the round trip: when the names are ordinary and
    the first call is made at a positive clock reading (all readings
    within [Number.MAX_SAFE_INTEGER]), the statistics are the ones the
    scenario promises. *)
Lemma round_trip_statistics names A B t d1 d2 h s :
  ordinaryNames names = true ->
  ordinaryName A = true -> ordinaryName B = true ->
  t + d1 + d2 <= maxSafeInteger ->
  A <> "" -> B <> "" -> A <> B -> 0 < t -> 0 <= d1 -> 0 <= d2 ->
  session names [CallStart (JString A) (Some t);
                 CallStart (JString B) (Some (t + d1));
                 CallStop (Some (t + d1 + d2))] = (h, Returns (Some s)) ->
  totalHearingTime (calculateStatistics (Some s) h) = d1 + d2
  /\ ps_totalTime <$> statsParties (calculateStatistics (Some s) h) !! A
     = Some d1
  /\ ps_totalTime <$> statsParties (calculateStatistics (Some s) h) !! B
     = Some d2
  /\ silenceTime (calculateStatistics (Some s) h) = 0.
Proof.
  intros _ _ _ _ HA HB HAB Ht Hd1 Hd2. unfold session.
  destruct (initializeSpeakingTime names emptyHeap) as [h0 s0] eqn:E0.
  apply initializeSpeakingTime_view in E0
    as (Hl0 & Hnew & _ & Hcs0 & _ & Hhs0 & _).
  set (m0 := partiesAt h0 (parties s0)) in *.
  cbn [runCalls call].
  destruct (startSpeaking (Some s0) (JString A) (Some t) h0) as [h1 s1] eqn:E1.
  apply startSpeaking_idle in E1
    as (Hl1 & Hm1 & _ & Hcs1 & Hst1 & Hhs1 & _); [|done..].
  rewrite Hhs0 in Hhs1. cbn [truthyTime] in Hhs1. fold m0 in Hm1.
  assert (HA1 : partiesAt h1 (parties s1) !! A = Some newParticipant).
  { rewrite Hm1. apply registered_lookup. apply Hnew. }
  destruct (startSpeaking (Some s1) (JString B) (Some (t + d1)) h1)
    as [h2 s2] eqn:E2.
  apply (startSpeaking_switch h1 s1 A newParticipant) in E2
    as (Hl2 & Hm2 & _ & Hcs2 & Hst2 & Hhs2 & _); [|done..].
  rewrite Hhs1, Hst1, Hm1 in *. cbn [truthyTime] in Hhs2.
  replace (Z.eqb t 0) with false in Hhs2 by (symmetry; apply Z.eqb_neq; lia).
  cbn [negb] in Hhs2.
  set (cA := closeTurn newParticipant (Some t) (t + d1)) in *.
  set (m1 := <[A := cA]> (registered A m0)) in *.
  assert (HB2 : partiesAt h2 (parties s2) !! B = Some newParticipant).
  { rewrite Hm2. apply registered_lookup. intros p. subst m1.
    rewrite lookup_insert_ne, registered_lookup_ne by done. apply Hnew. }
  destruct (stopTracking (Some s2) (Some (t + d1 + d2)) h2) as [h3 s3] eqn:E3.
  apply (stopTracking_speaking h2 s2 B newParticipant) in E3
    as (_ & Hm3 & _ & _ & _ & Hhs3 & Hhe3 & _); [|try done..].
  2:{ rewrite Hst2. cbn [truthyTime]. apply negb_true_iff, Z.eqb_neq. lia. }
  intros [= <- <-].
  rewrite Hst2, Hm2 in Hm3. rewrite Hhs2 in Hhs3. rewrite Hm2 in HB2.
  set (cB := closeTurn newParticipant (Some (t + d1)) (t + d1 + d2)) in *.
  assert (Hsum : sumTotalTime (partiesAt h3 (parties s3)) = d1 + d2).
  { rewrite Hm3. unfold sumTotalTime.
    rewrite (sumValues_insert_Some _ _ B cB newParticipant HB2).
    rewrite sumValues_registered by done. subst m1.
    rewrite (sumValues_insert_Some _ _ A cA newParticipant).
    - rewrite sumValues_registered by done.
      rewrite sumValues_zero.
      + cbn. lia.
      + intros k v Hk. by rewrite (Hnew k v Hk).
    - apply registered_lookup, Hnew. }
  cbn [calculateStatistics totalHearingTime silenceTime statsParties].
  rewrite Hsum, Hhs3, Hhe3. cbn [toNumber].
  split; [lia|]. rewrite !lookup_fmap, Hm3.
  split; [|split; [|lia]].
  - rewrite lookup_insert_ne, registered_lookup_ne by done. subst m1.
    rewrite lookup_insert_eq. cbn. f_equal. lia.
  - rewrite lookup_insert_eq. cbn. f_equal. lia.
Qed.

Lemma round_trip_statistics_witness :
  exists h s,
    session None [CallStart (JString "State") (Some 1000);
                  CallStart (JString "Defense") (Some (1000 + 5000));
                  CallStop (Some (1000 + 5000 + 3000))]
    = (h, Returns (Some s))
    /\ totalHearingTime (calculateStatistics (Some s) h) = 5000 + 3000
    /\ silenceTime (calculateStatistics (Some s) h) = 0.
Proof.
  destruct (session_returns None
              [CallStart (JString "State") (Some 1000);
               CallStart (JString "Defense") (Some (1000 + 5000));
               CallStop (Some (1000 + 5000 + 3000))]) as (h & s & E).
  exists h, s. split; [exact E|].
  destruct (round_trip_statistics None "State" "Defense" 1000 5000 3000 h s)
    as (H1 & _ & _ & H4); try done; try (unfold maxSafeInteger; lia).
Defined.

(** ** The party registry *)

Lemma trim_nonempty name : trim name <> "" -> name <> "".
Proof. intros H ->. by apply H. Qed.




(** ** The TIMELINE section of the report *)

Example timelineSection_sample :
  timelineSection (fun v => "T" +:+ toPropertyKey v)
    [Some (mkReportEntry (JString "State") (JNumber (Fin 5)) (MsNum (Fin 61000)));
     None;
     Some (mkReportEntry (JString "State") (JNumber (Fin 0)) (MsNum (Fin 61000)));
     Some (mkReportEntry (JString "") (JNumber (Fin 6)) (MsNum (Fin 61000)));
     Some (mkReportEntry (JString "Court") (JNumber (Fin 7)) MsNull);
     Some (mkReportEntry (JString "Court") (JNumber (Fin 8)) MsUndefined)]
  = "TIMELINE" +:+ newline +:+ "--------" +:+ newline
    +:+ "1. T5 - State (1:01)" +:+ newline
    +:+ "5. T7 - Court (0:00)" +:+ newline.
Proof. reflexivity. Qed.







(** * Further properties of the tracker *)

(** ** The effect of a call, case by case *)

Lemma startSpeaking_effect h s party clock h' s' :
  live h s ->
  startSpeaking (Some s) party clock h = (h', s') ->
  live h' s'
  /\ callEffect (CallStart party clock) s
       (partiesAt h (parties s)) (timelineAt h (timeline s))
       s' (partiesAt h' (parties s')) (timelineAt h' (timeline s')).
Proof.
  intros Hl. cbn [startSpeaking].
  destruct (negb (truthy party) || negb (isString party)) eqn:Hguard.
  { intros [= <- <-]. split; [done|]. by left. }
  destruct party as [| | b | x | name]; cbn in Hguard;
    rewrite ?orb_true_r in Hguard; try discriminate.
  rewrite orb_false_r in Hguard. apply negb_false_iff, negb_true_iff in Hguard.
  destruct clock as [now|]; [|intros [= <- <-]; split; [done|by left]].
  cbn [toPropertyKey].
  set (h1 := match currentSpeaker s with Some _ => _ | None => _ end).
  assert (H1 : live h1 s
               /\ turnClosed s (Some name) now
                    (partiesAt h (parties s)) (timelineAt h (timeline s))
                    (partiesAt h1 (parties s)) (timelineAt h1 (timeline s))).
  { subst h1. destruct (currentSpeaker s) as [cs|] eqn:Hcs;
      [|split; [done|by left]].
    cbn [truthyName].
    destruct (String.eqb_spec cs ""); cbn [negb andb];
      [split; [done|by left]|].
    destruct (String.eqb_spec cs name); cbn [negb];
      [split; [done|by left]|].
    destruct (partiesAt h (parties s) !! cs) as [p|] eqn:Hp;
      [|split; [done|by left]].
    split; [by apply live_finalizeTurn|]. right. exists cs, p.
    rewrite finalizeTurn_parties, finalizeTurn_timeline by done.
    repeat split; try done. congruence. }
  clearbody h1. destruct H1 as [Hl1 Hturn].
  destruct (register_step h1 s name Hl1) as (Hl2 & Hm2 & Ht2).
  intros [= <- <-]. split; [exact Hl2|]. right.
  split; [by apply String.eqb_neq|]. split; [reflexivity|].
  exists (partiesAt h1 (parties s)).
  cbn [parties timeline]. rewrite Ht2. by split.
Qed.

Lemma stopTracking_effect h s clock h' s' :
  live h s ->
  stopTracking (Some s) clock h = (h', s') ->
  live h' s'
  /\ callEffect (CallStop clock) s
       (partiesAt h (parties s)) (timelineAt h (timeline s))
       s' (partiesAt h' (parties s')) (timelineAt h' (timeline s')).
Proof.
  intros Hl. cbn [stopTracking].
  destruct clock as [now|]; [|intros [= <- <-]; split; [done|by left]].
  set (h1 := match currentSpeaker s with Some _ => _ | None => _ end).
  assert (H1 : live h1 s
               /\ turnClosed s None now
                    (partiesAt h (parties s)) (timelineAt h (timeline s))
                    (partiesAt h1 (parties s)) (timelineAt h1 (timeline s))).
  { subst h1. destruct (currentSpeaker s) as [cs|] eqn:Hcs;
      [|split; [done|by left]].
    cbn [truthyName].
    destruct (String.eqb_spec cs ""); cbn [negb andb];
      [split; [done|by left]|].
    destruct (truthyTime (startTime s)) eqn:Hst;
      [|split; [done|by left]].
    destruct (partiesAt h (parties s) !! cs) as [p|] eqn:Hp;
      [|split; [done|by left]].
    split; [by apply live_finalizeTurn|]. right. exists cs, p.
    rewrite finalizeTurn_parties, finalizeTurn_timeline by done.
    repeat split; done. }
  clearbody h1. destruct H1 as [Hl1 Hturn].
  intros [= <- <-]. split; [exact Hl1|]. right.
  split; [reflexivity|]. exact Hturn.
Qed.

Lemma addParty_effect h s partyName h' s' :
  live h s ->
  addParty (Some s) partyName h = (h', s') ->
  live h' s'
  /\ callEffect (CallAdd partyName) s
       (partiesAt h (parties s)) (timelineAt h (timeline s))
       s' (partiesAt h' (parties s')) (timelineAt h' (timeline s')).
Proof.
  intros Hl. cbn [addParty].
  destruct (rejectedName partyName) eqn:Hrej;
    [intros [= <- <-]; split; [done|by left]|].
  destruct (partiesAt h (parties s) !! toPropertyKey partyName) eqn:Hp;
    intros [= <- <-]; [split; [done|by left]|].
  split; [by apply live_writeParties|]. right.
  unfold rejectedName in Hrej.
  destruct partyName as [| | b | x | name]; cbn in Hrej;
    rewrite ?orb_true_r in Hrej; try discriminate.
  apply orb_false_elim in Hrej as [_ Htrim].
  cbn [toPropertyKey] in *.
  rewrite partiesAt_writeParties by apply Hl.
  repeat split; try done. by apply String.eqb_neq.
Qed.

Lemma removeParty_effect h s partyName h' s' :
  live h s ->
  removeParty (Some s) partyName h = (h', Returns (Some s')) ->
  live h' s'
  /\ callEffect (CallRemove partyName) s
       (partiesAt h (parties s)) (timelineAt h (timeline s))
       s' (partiesAt h' (parties s')) (timelineAt h' (timeline s')).
Proof.
  intros Hl. cbn [removeParty].
  destruct (speakerIs (currentSpeaker s) partyName) eqn:Hsp;
    intros [= <- <-]; [split; [done|by left]|].
  split; [by apply live_writeParties|]. right.
  rewrite partiesAt_writeParties by apply Hl. done.
Qed.

Lemma call_effect c h s h' s' :
  live h s ->
  call c (Some s) h = (h', Returns (Some s')) ->
  live h' s'
  /\ callEffect c s (partiesAt h (parties s)) (timelineAt h (timeline s))
       s' (partiesAt h' (parties s')) (timelineAt h' (timeline s')).
Proof.
  intros Hl. destruct c as [party clock | clock | name | name]; cbn [call].
  - destruct (startSpeaking (Some s) party clock h) as [h1 s1] eqn:E.
    intros [= <- <-]. by eapply startSpeaking_effect.
  - destruct (stopTracking (Some s) clock h) as [h1 s1] eqn:E.
    intros [= <- <-]. by eapply stopTracking_effect.
  - destruct (addParty (Some s) name h) as [h1 s1] eqn:E.
    intros [= <- <-]. by eapply addParty_effect.
  - by apply removeParty_effect.
Qed.

(** An invariant of the state, the parties and the timeline that may
    depend on the calls still to come is kept by a whole session as soon
    as every single effect keeps it. *)
Section SessionInvariant.

Variable J : list Call -> State -> gmap string Participant
             -> list TimelineEntry -> Prop.

Hypothesis J_step : forall c rest s m t s' m' t',
  J (c :: rest) s m t -> callEffect c s m t s' m' t' -> J rest s' m' t'.

Lemma runCalls_invariant calls : forall h s h' s',
  live h s ->
  J calls s (partiesAt h (parties s)) (timelineAt h (timeline s)) ->
  runCalls calls (Some s) h = (h', Returns (Some s')) ->
  live h' s'
  /\ J [] s' (partiesAt h' (parties s')) (timelineAt h' (timeline s')).
Proof.
  induction calls as [|c rest IH]; intros h s h' s' Hl HJ; cbn [runCalls].
  - by intros [= <- <-].
  - destruct (call_returns c s h) as (h1 & s1 & E). rewrite E.
    apply call_effect in E as [Hl1 He]; [|done].
    apply IH; [done|]. by eapply J_step.
Qed.

Lemma session_invariant names calls h s :
  (forall s0 m0,
      currentSpeaker s0 = None -> startTime s0 = None ->
      hearingStartTime s0 = None -> hearingEndTime s0 = None ->
      isActive s0 = false -> isPaused s0 = false ->
      (forall k v, m0 !! k = Some v -> v = newParticipant) ->
      J calls s0 m0 []) ->
  session names calls = (h, Returns (Some s)) ->
  J [] s (partiesAt h (parties s)) (timelineAt h (timeline s)).
Proof.
  intros H0. unfold session.
  destruct (initializeSpeakingTime names emptyHeap) as [h0 s0] eqn:E0.
  apply initializeSpeakingTime_view in E0
    as (Hl & Hnew & Ht & Hcs & Hst & Hhs & Hhe & Ha & Hp).
  intros Hrun. eapply runCalls_invariant in Hrun as [_ HJ]; [done|done|].
  rewrite Ht. by apply H0.
Qed.

End SessionInvariant.

Lemma callEffect_inv c s m t s' m' t' :
  callEffect c s m t s' m' t' ->
  (s' = s /\ m' = m /\ t' = t)
  \/ (exists name now m1,
         c = CallStart (JString name) (Some now) /\ name <> ""
         /\ s' = startedState s name now
         /\ turnClosed s (Some name) now m t m1 t'
         /\ m' = registered name m1)
  \/ (exists now,
         c = CallStop (Some now) /\ s' = stoppedState s now
         /\ turnClosed s None now m t m' t')
  \/ (exists name,
         c = CallAdd (JString name) /\ s' = s /\ t' = t
         /\ trim name <> "" /\ m !! name = None
         /\ m' = <[name := newParticipant]> m)
  \/ (exists partyName,
         c = CallRemove partyName /\ s' = s /\ t' = t
         /\ speakerIs (currentSpeaker s) partyName = false
         /\ m' = delete (toPropertyKey partyName) m).
Proof.
  intros [H | H]; [by left|]. right.
  destruct c as [[| | b | x | name] [now|] | [now|] | [| | b | x | name] | n];
    try done.
  - left. destruct H as (Hn & Hs & m1 & Ht & Hm). by exists name, now, m1.
  - right; left. by exists now.
  - do 2 right; left. by exists name.
  - do 3 right. by exists n.
Qed.

Lemma registered_is_Some name (m : gmap string Participant) :
  is_Some (registered name m !! name).
Proof.
  unfold registered. destruct (m !! name) eqn:E.
  - by rewrite E.
  - rewrite lookup_insert_eq. by eexists.
Qed.

Lemma registered_lookup_Some name k v (m : gmap string Participant) :
  registered name m !! k = Some v -> m !! k = Some v \/ v = newParticipant.
Proof.
  unfold registered. destruct (m !! name) eqn:E; [by left|].
  destruct (decide (name = k)) as [->|Hne].
  - rewrite lookup_insert_eq. intros [= <-]. by right.
  - rewrite lookup_insert_ne by done. by left.
Qed.

Lemma registered_keeps name k (m : gmap string Participant) :
  is_Some (m !! k) -> registered name m !! k = m !! k.
Proof.
  intros Hk. unfold registered. destruct (m !! name) eqn:E; [done|].
  rewrite lookup_insert_ne; [done|]. intros ->. rewrite E in Hk.
  by destruct Hk.
Qed.

Lemma startsTurn_valid name now :
  name <> "" -> startsTurn (CallStart (JString name) (Some now)) = true.
Proof.
  intros Hn. cbn. apply String.eqb_neq in Hn. by rewrite Hn.
Qed.

(** ** The shape of reachable states *)

(** In every state that a session reaches, [startTime] is set exactly
    when there is a current speaker, the current speaker is never the
    empty name and has a hearing start time, and a paused state has no
    speaker. *)
Theorem reachable_state_shape names calls h s :
  session names calls = (h, Returns (Some s)) ->
  (is_Some (currentSpeaker s) <-> is_Some (startTime s))
  /\ currentSpeaker s <> Some ""
  /\ (is_Some (currentSpeaker s) -> is_Some (hearingStartTime s))
  /\ (isPaused s = true -> currentSpeaker s = None).
Proof.
  apply (session_invariant
           (fun _ s _ _ =>
              (is_Some (currentSpeaker s) <-> is_Some (startTime s))
              /\ currentSpeaker s <> Some ""
              /\ (is_Some (currentSpeaker s) -> is_Some (hearingStartTime s))
              /\ (isPaused s = true -> currentSpeaker s = None))).
  - intros c rest s0 m t s' m' t' HJ He.
    apply callEffect_inv in He
      as [(-> & _) | [(name & now & m1 & _ & Hn & -> & _)
         | [(now & _ & -> & _) | [(name & _ & -> & _) | (n & _ & -> & _)]]]];
      try done.
    + cbn. repeat split; try (by eexists); try congruence.
      intros _. destruct (truthyTime (hearingStartTime s0)) eqn:E;
        cbn [negb]; [|by eexists].
      destruct (hearingStartTime s0); [by eexists|done].
    + cbn. repeat split; try done; by intros [? ?].
  - intros s0 m0 -> -> -> _ _ ->. repeat split; try done; by intros [? ?].
Qed.

Lemma reachable_state_shape_witness :
  exists h s,
    session None [CallStart (JString "State") (Some 1000);
                  CallRemove (JString "Court")] = (h, Returns (Some s))
    /\ is_Some (currentSpeaker s) /\ is_Some (startTime s).
Proof.
  destruct (session_returns None
              [CallStart (JString "State") (Some 1000);
               CallRemove (JString "Court")]) as (h & s & E).
  exists h, s. split; [exact E|].
  destruct (reachable_state_shape _ _ _ _ E) as (Hiff & _).
  assert (Hs : is_Some (currentSpeaker s)).
  { revert E. vm_compute. intros [= <- <-]. by eexists. }
  split; [exact Hs | by apply Hiff].
Defined.

(** In a session over ordinary names whose [removeParty] calls are all
    made with a string, the current speaker is always one of the
    participants. *)
Theorem current_speaker_is_registered names calls h s cs :
  ordinarySession names calls = true ->
  forallb removesByName calls = true ->
  session names calls = (h, Returns (Some s)) ->
  currentSpeaker s = Some cs ->
  is_Some (partiesAt h (parties s) !! cs).
Proof.
  intros _ Hg Hrun.
  cut (forallb removesByName [] = true
       /\ forall cs, currentSpeaker s = Some cs ->
                     is_Some (partiesAt h (parties s) !! cs));
    [intros [_ H]; apply H|].
  revert Hrun.
  apply (session_invariant
           (fun rest s m _ =>
              forallb removesByName rest = true
              /\ forall cs, currentSpeaker s = Some cs -> is_Some (m !! cs))).
  - intros c rest s0 m t s' m' t' [Hall HJ] He.
    cbn [forallb] in Hall. apply andb_prop in Hall as [Hc Hrest].
    split; [done|].
    apply callEffect_inv in He
      as [(-> & -> & _) | [(name & now & m1 & _ & Hn & -> & _ & ->)
         | [(now & _ & -> & _) | [(name & _ & -> & _ & _ & _ & ->)
         | (n & -> & -> & _ & Hsp & ->)]]]];
      try done.
    + cbn. intros ? [= <-]. apply registered_is_Some.
    + intros k Hk. apply lookup_insert_is_Some'. right. by apply HJ.
    + intros k Hk. destruct n as [| | b | x | name]; try discriminate.
      rewrite Hk in Hsp. cbn in Hsp. apply String.eqb_neq in Hsp.
      cbn [toPropertyKey]. rewrite lookup_delete_ne by (intros ->; done).
      by apply HJ.
  - intros s0 m0 -> _ _ _ _ _ _. done.
Qed.

Lemma current_speaker_is_registered_witness :
  exists h s,
    session (Some []) [CallStart (JString "Witness") (Some 1000);
                       CallRemove (JString "Witness")]
    = (h, Returns (Some s))
    /\ currentSpeaker s = Some "Witness"
    /\ is_Some (partiesAt h (parties s) !! "Witness").
Proof.
  destruct (session_returns (Some [])
              [CallStart (JString "Witness") (Some 1000);
               CallRemove (JString "Witness")]) as (h & s & E).
  exists h, s. split; [exact E|].
  assert (Hs : currentSpeaker s = Some "Witness").
  { revert E. vm_compute. by intros [= <- <-]. }
  split; [exact Hs|].
  by apply (current_speaker_is_registered (Some [])
              [CallStart (JString "Witness") (Some 1000);
               CallRemove (JString "Witness")]).
Defined.

(** ** The timeline and the segments record the same turns *)

Lemma session_preserves (P : gmap string Participant -> list TimelineEntry -> Prop)
  (removes : bool) names calls h s :
  (forall m t cs p start now,
      m !! cs = Some p -> P m t ->
      P (<[cs := closeTurn p start now]> m) (t ++ [turnEntry cs start now])%list) ->
  (forall m t name,
      m !! name = None -> P m t -> P (<[name := newParticipant]> m) t) ->
  (removes = true -> forall m t name, P m t -> P (delete name m) t) ->
  (forall m0, (forall k v, m0 !! k = Some v -> v = newParticipant) -> P m0 []) ->
  forallb (fun c => implb (isRemove c) removes) calls = true ->
  session names calls = (h, Returns (Some s)) ->
  P (partiesAt h (parties s)) (timelineAt h (timeline s)).
Proof.
  intros Hturn Hreg Hdel H0 Hall. unfold session.
  destruct (initializeSpeakingTime names emptyHeap) as [h0 s0] eqn:E0.
  apply initializeSpeakingTime_view in E0 as (Hl & Hnew & Ht & _).
  intros Hrun.
  cut (holdsOn P h s); [by intros [_ HP]|].
  eapply (runCalls_preserves P removes); [done..| |exact Hrun].
  split; [done|]. rewrite Ht. by apply H0.
Qed.

Lemma turnsOf_snoc name t e :
  turnsOf name (t ++ [e])
  = (turnsOf name t
       ++ if String.eqb (tl_party e) name then [entrySegment e] else [])%list.
Proof.
  unfold turnsOf. rewrite List.filter_app, map_app. cbn [List.filter].
  by destruct (String.eqb (tl_party e) name).
Qed.

Lemma turnsOf_snoc_same name t start now :
  turnsOf name (t ++ [turnEntry name start now])
  = (turnsOf name t ++ [mkSegment start now (now - toNumber start)])%list.
Proof.
  rewrite turnsOf_snoc. cbn [turnEntry tl_party].
  by rewrite String.eqb_refl.
Qed.

Lemma turnsOf_snoc_other name cs t start now :
  cs <> name ->
  turnsOf name (t ++ [turnEntry cs start now]) = turnsOf name t.
Proof.
  intros Hne. rewrite turnsOf_snoc. cbn [turnEntry tl_party].
  apply String.eqb_neq in Hne. rewrite Hne. apply app_nil_r.
Qed.

(** In every state that a session reaches, the segments of a participant
    are the most recent turns of that name in the timeline, with the
    same start, end and duration; when the session has no [removeParty]
    call and all its names are ordinary, they are all of them, and a
    name that is not a participant has no turn in the timeline. *)
Theorem segments_are_timeline_turns names calls h s :
  session names calls = (h, Returns (Some s)) ->
  (forall name p,
      partiesAt h (parties s) !! name = Some p ->
      exists earlier,
        turnsOf name (timelineAt h (timeline s))
        = (earlier ++ segments p)%list)
  /\ (forallb (fun c => negb (isRemove c)) calls = true ->
      ordinarySession names calls = true ->
      forall name,
        turnsOf name (timelineAt h (timeline s))
        = default [] (segments <$> partiesAt h (parties s) !! name)).
Proof.
  intros Hrun. split.
  - revert Hrun.
    apply (session_preserves
             (fun m t => forall name p, m !! name = Some p ->
                exists earlier, turnsOf name t = (earlier ++ segments p)%list)
             true); [| | | |apply forallb_implb_true].
    + intros m t cs q start now Hcs HP name p.
      destruct (decide (cs = name)) as [->|Hne].
      * rewrite lookup_insert_eq. intros [= <-].
        destruct (HP name q Hcs) as [earlier He]. exists earlier.
        rewrite turnsOf_snoc_same, He. cbn [closeTurn segments].
        by rewrite app_assoc.
      * rewrite lookup_insert_ne by done. intros Hp.
        rewrite turnsOf_snoc_other by done. by apply HP.
    + intros m t k Hk HP name p.
      destruct (decide (k = name)) as [->|Hne].
      * rewrite lookup_insert_eq. intros [= <-].
        exists (turnsOf name t). by rewrite app_nil_r.
      * rewrite lookup_insert_ne by done. apply HP.
    + intros _ m t k HP name p Hp.
      apply lookup_delete_Some in Hp as [_ Hp]. by apply HP.
    + intros m0 Hnew name p Hp. exists []. by rewrite (Hnew name p Hp).
  - intros Hnr _. revert Hrun.
    apply (session_preserves
             (fun m t => forall name,
                turnsOf name t = default [] (segments <$> m !! name))
             false); [| | | |by apply forallb_implb_false].
    + intros m t cs q start now Hcs HP name.
      destruct (decide (cs = name)) as [->|Hne].
      * rewrite lookup_insert_eq, turnsOf_snoc_same, HP, Hcs. done.
      * rewrite lookup_insert_ne, turnsOf_snoc_other by done. apply HP.
    + intros m t k Hk HP name.
      destruct (decide (k = name)) as [->|Hne].
      * rewrite lookup_insert_eq, HP, Hk. done.
      * rewrite lookup_insert_ne by done. apply HP.
    + discriminate.
    + intros m0 Hnew name. destruct (m0 !! name) as [p|] eqn:Hp; [|done].
      by rewrite (Hnew name p Hp).
Qed.

Lemma segments_are_timeline_turns_witness :
  exists h s,
    session None [CallStart (JString "State") (Some 1000);
                  CallStart (JString "Defense") (Some 4000);
                  CallStart (JString "State") (Some 6000);
                  CallStop (Some 9000)] = (h, Returns (Some s))
    /\ turnsOf "State" (timelineAt h (timeline s))
       = [mkSegment (Some 1000) 4000 3000; mkSegment (Some 6000) 9000 3000]
    /\ turnsOf "State" (timelineAt h (timeline s))
       = default [] (segments <$> partiesAt h (parties s) !! "State").
Proof.
  eexists _, _.
  split; [vm_compute; reflexivity|].
  split; [vm_compute; reflexivity|].
  eapply (segments_are_timeline_turns None
            [CallStart (JString "State") (Some 1000);
             CallStart (JString "Defense") (Some 4000);
             CallStart (JString "State") (Some 6000);
             CallStop (Some 9000)]);
    vm_compute; reflexivity.
Defined.




(** ** A clock that does not run backwards *)

Lemma nondecreasing_cons a b l :
  nondecreasing (a :: b :: l) = true <-> a <= b /\ nondecreasing (b :: l) = true.
Proof.
  cbn [nondecreasing]. rewrite andb_true_iff, Z.leb_le. reflexivity.
Qed.

Lemma nondecreasing_drop a b l :
  nondecreasing (a :: b :: l) = true -> nondecreasing (a :: l) = true.
Proof.
  intros [Hab Hl]%nondecreasing_cons. destruct l as [|c l]; [done|].
  apply nondecreasing_cons in Hl as [Hbc Hl].
  apply nondecreasing_cons. split; [lia|done].
Qed.

Lemma nondecreasing_snoc2 l a b :
  nondecreasing l = true -> Forall (fun x => x <= a) l -> a <= b ->
  nondecreasing (l ++ [a; b]) = true.
Proof.
  intros Hl Hall Hab. induction l as [|x l IH].
  - by apply nondecreasing_cons.
  - apply Forall_cons in Hall as [Hx Hall]. destruct l as [|y l].
    + cbn [app]. apply nondecreasing_cons. split; [done|].
      by apply nondecreasing_cons.
    + apply nondecreasing_cons in Hl as [Hxy Hl].
      change (nondecreasing (x :: y :: (l ++ [a; b])) = true).
      apply nondecreasing_cons. split; [done|]. by apply IH.
Qed.

Lemma timesOf_snoc t e :
  timesOf (t ++ [e]) = (timesOf t ++ [toNumber (tl_start e); tl_end e])%list.
Proof.
  unfold timesOf. rewrite flat_map_app. cbn [flat_map]. by rewrite app_nil_r.
Qed.

Lemma readings_skip L c rest :
  nondecreasing (L :: readings (c :: rest)) = true ->
  nondecreasing (L :: readings rest) = true.
Proof.
  unfold readings. cbn [flat_map].
  destruct c as [party [now|] | [now|] | name | name]; cbn [app]; try done.
  - destruct (startsTurn _ || stopsTurn _); cbn [app]; [|done].
    apply nondecreasing_drop.
  - cbn. apply nondecreasing_drop.
Qed.

Lemma readings_start name now rest :
  name <> "" ->
  readings (CallStart (JString name) (Some now) :: rest) = now :: readings rest.
Proof.
  intros Hn. unfold readings. cbn [flat_map].
  by rewrite (startsTurn_valid name now Hn).
Qed.

Lemma turnClosed_chronological s next now m t m1 t1 :
  (is_Some (currentSpeaker s) ->
   toNumber (hearingEndTime s) <= toNumber (startTime s)) ->
  Z.max (toNumber (startTime s)) (toNumber (hearingEndTime s)) <= now ->
  Forall (fun x => x <= Z.max (toNumber (startTime s))
                             (toNumber (hearingEndTime s))) (timesOf t) ->
  nondecreasing (timesOf t) = true ->
  Forall (fun e => 0 <= tl_duration e) t ->
  (forall name p, m !! name = Some p ->
     0 <= totalTime p /\ Forall (fun sg => 0 <= seg_duration sg) (segments p)) ->
  turnClosed s next now m t m1 t1 ->
  Forall (fun x => x <= now) (timesOf t1)
  /\ nondecreasing (timesOf t1) = true
  /\ Forall (fun e => 0 <= tl_duration e) t1
  /\ (forall name p, m1 !! name = Some p ->
        0 <= totalTime p /\ Forall (fun sg => 0 <= seg_duration sg) (segments p)).
Proof.
  intros Hb HL Hc Hd Hdur He
    [[-> ->] | (cs & q & Hcs & _ & _ & _ & Hq & -> & ->)].
  - split; [|done]. eapply Forall_impl; [exact Hc|]. cbn. lia.
  - assert (Hs : toNumber (hearingEndTime s) <= toNumber (startTime s))
      by (apply Hb; rewrite Hcs; by eexists).
    rewrite Z.max_l in * by done.
    rewrite timesOf_snoc. cbn [turnEntry tl_start tl_end].
    split; [|split; [|split]].
    + apply Forall_app. split.
      * eapply Forall_impl; [exact Hc|]. cbn. lia.
      * repeat constructor; lia.
    + by apply nondecreasing_snoc2.
    + apply Forall_app. split; [done|]. repeat constructor. cbn. lia.
    + intros name p. destruct (decide (cs = name)) as [->|Hne].
      * rewrite lookup_insert_eq. intros [= <-].
        destruct (He name q Hq) as [Ht Hsg]. cbn [closeTurn totalTime segments].
        split; [lia|]. apply Forall_app. split; [done|].
        repeat constructor. cbn. lia.
      * rewrite lookup_insert_ne by done. apply He.
Qed.

(** When the clock readings of a session are non-negative and never
    decrease, the timeline is in chronological order (every turn starts
    no earlier than the previous one ended and ends no earlier than it
    started), and no duration and no total time is negative. *)
Theorem monotone_clock_chronological_timeline names calls h s :
  nondecreasing (0 :: readings calls) = true ->
  session names calls = (h, Returns (Some s)) ->
  nondecreasing (timesOf (timelineAt h (timeline s))) = true
  /\ Forall (fun e => 0 <= tl_duration e) (timelineAt h (timeline s))
  /\ (forall name p,
        partiesAt h (parties s) !! name = Some p ->
        0 <= totalTime p
        /\ Forall (fun sg => 0 <= seg_duration sg) (segments p)).
Proof.
  intros Hmono Hrun.
  pose (J := fun (rest : list Call) (s : State)
                 (m : gmap string Participant) (t : list TimelineEntry) =>
    nondecreasing
      (Z.max (toNumber (startTime s)) (toNumber (hearingEndTime s))
         :: readings rest) = true
    /\ 0 <= toNumber (startTime s) /\ 0 <= toNumber (hearingEndTime s)
    /\ (is_Some (currentSpeaker s) ->
        toNumber (hearingEndTime s) <= toNumber (startTime s))
    /\ Forall (fun x => x <= Z.max (toNumber (startTime s))
                                  (toNumber (hearingEndTime s))) (timesOf t)
    /\ nondecreasing (timesOf t) = true
    /\ Forall (fun e => 0 <= tl_duration e) t
    /\ (forall name p, m !! name = Some p ->
          0 <= totalTime p
          /\ Forall (fun sg => 0 <= seg_duration sg) (segments p))).
  cut (J [] s (partiesAt h (parties s)) (timelineAt h (timeline s)));
    [by intros (_ & _ & _ & _ & _ & ? & ? & ?)|].
  revert Hrun. apply (session_invariant J); subst J; cbn beta.
  - intros c rest s0 m t s' m' t' (Hr & Hs0 & He0 & Hb & Hc & Hd & Hdur & Hv) Heff.
    apply callEffect_inv in Heff
      as [(-> & -> & ->) | [(name & now & m1 & -> & Hn & -> & Hturn & ->)
         | [(now & -> & -> & Hturn) | [(name & -> & -> & -> & _ & Hk & ->)
         | (n & -> & -> & -> & _ & ->)]]]].
    + split; [by eapply readings_skip|done].
    + rewrite readings_start in Hr by done.
      apply nondecreasing_cons in Hr as [HL Hr].
      destruct (turnClosed_chronological _ _ _ _ _ _ _ Hb HL Hc Hd Hdur Hv Hturn)
        as (Hc' & Hd' & Hdur' & Hv').
      cbn [startedState startTime hearingEndTime currentSpeaker toNumber].
      rewrite Z.max_l by lia.
      split_and!; try done; try lia.
      intros name' p Hp.
      apply registered_lookup_Some in Hp as [Hp | ->]; [exact (Hv' _ _ Hp)|].
      cbn. split; [lia|done].
    + change (readings (CallStop (Some now) :: rest)) with (now :: readings rest) in Hr.
      apply nondecreasing_cons in Hr as [HL Hr].
      destruct (turnClosed_chronological _ _ _ _ _ _ _ Hb HL Hc Hd Hdur Hv Hturn)
        as (Hc' & Hd' & Hdur' & Hv').
      cbn [stoppedState startTime hearingEndTime currentSpeaker toNumber].
      rewrite Z.max_r by lia.
      split_and!; try done; lia.
    + split_and!; try done; try (by eapply readings_skip).
      intros name' p.
      destruct (decide (name = name')) as [->|Hne].
      * rewrite lookup_insert_eq. intros [= <-]. cbn. split; [lia|done].
      * rewrite lookup_insert_ne by done. apply Hv.
    + split_and!; try done; try (by eapply readings_skip).
      intros name' p Hp. apply lookup_delete_Some in Hp as [_ Hp].
      exact (Hv _ _ Hp).
  - intros s0 m0 Hcs -> _ -> _ _ Hnew. cbn [toNumber].
    split_and!; try done.
    intros name p Hp. rewrite (Hnew name p Hp). cbn. split; [lia|done].
Qed.

Lemma monotone_clock_chronological_timeline_witness :
  exists h s,
    session None [CallStart (JString "State") (Some 1000);
                  CallStart (JString "Defense") (Some 4000);
                  CallStop (Some 9000)] = (h, Returns (Some s))
    /\ timesOf (timelineAt h (timeline s)) = [1000; 4000; 4000; 9000]
    /\ nondecreasing (timesOf (timelineAt h (timeline s))) = true.
Proof.
  eexists _, _.
  split; [vm_compute; reflexivity|].
  split; [vm_compute; reflexivity|].
  eapply (monotone_clock_chronological_timeline None
            [CallStart (JString "State") (Some 1000);
             CallStart (JString "Defense") (Some 4000);
             CallStop (Some 9000)]);
    vm_compute; reflexivity.
Defined.

(** ** Every turn is recorded and reported *)

Lemma session_speaker_ready names calls h s :
  ordinarySession names calls = true ->
  forallb removesByName calls = true ->
  session names calls = (h, Returns (Some s)) ->
  live h s
  /\ forall cs, currentSpeaker s = Some cs ->
       cs <> "" /\ is_Some (partiesAt h (parties s) !! cs).
Proof.
  intros _ Hg. unfold session.
  destruct (initializeSpeakingTime names emptyHeap) as [h0 s0] eqn:E0.
  apply initializeSpeakingTime_view in E0 as (Hl & _ & _ & Hcs & _).
  intros Hrun.
  apply (runCalls_invariant
           (fun rest s m _ =>
              forallb removesByName rest = true
              /\ forall cs, currentSpeaker s = Some cs ->
                   cs <> "" /\ is_Some (m !! cs))) in Hrun
    as [Hl' [_ H]]; [done| |done|].
  - intros c rest s1 m t s' m' t' [Hall HJ] He.
    cbn [forallb] in Hall. apply andb_prop in Hall as [Hc Hrest].
    split; [done|].
    apply callEffect_inv in He
      as [(-> & -> & _) | [(name & now & m1 & _ & Hn & -> & _ & ->)
         | [(now & _ & -> & _) | [(name & _ & -> & _ & _ & _ & ->)
         | (n & -> & -> & _ & Hsp & ->)]]]];
      try done.
    + cbn. intros ? [= <-]. split; [done|]. apply registered_is_Some.
    + intros k Hk. destruct (HJ k Hk) as [? ?]. split; [done|].
      apply lookup_insert_is_Some'. by right.
    + intros k Hk. destruct (HJ k Hk) as [? ?]. split; [done|].
      destruct n as [| | b | x | name]; try discriminate.
      rewrite Hk in Hsp. cbn in Hsp. apply String.eqb_neq in Hsp.
      cbn [toPropertyKey]. by rewrite lookup_delete_ne by (intros ->; done).
  - split; [done|]. intros cs. by rewrite Hcs.
Qed.

(** In a session over ordinary names whose [removeParty] calls are all
    made with a string, a [startSpeaking] for another party always
    closes the turn of the current speaker: the speaker's record gains the turn and the
    timeline gains the matching entry, from [startTime] to the clock
    reading.  [stopTracking] does the same whenever [startTime] is a
    non-zero timestamp. *)
Theorem open_turn_is_recorded names calls h s cs :
  ordinarySession names calls = true ->
  forallb removesByName calls = true ->
  session names calls = (h, Returns (Some s)) ->
  currentSpeaker s = Some cs ->
  exists p,
    partiesAt h (parties s) !! cs = Some p
    /\ (forall name now h' s',
          name <> "" -> name <> cs ->
          startSpeaking (Some s) (JString name) (Some now) h = (h', s') ->
          partiesAt h' (parties s') !! cs
          = Some (closeTurn p (startTime s) now)
          /\ timelineAt h' (timeline s')
             = (timelineAt h (timeline s)
                  ++ [turnEntry cs (startTime s) now])%list)
    /\ (forall now h' s',
          truthyTime (startTime s) = true ->
          stopTracking (Some s) (Some now) h = (h', s') ->
          partiesAt h' (parties s') !! cs
          = Some (closeTurn p (startTime s) now)
          /\ timelineAt h' (timeline s')
             = (timelineAt h (timeline s)
                  ++ [turnEntry cs (startTime s) now])%list).
Proof.
  intros Hord Hg Hrun Hcs.
  destruct (session_speaker_ready _ _ _ _ Hord Hg Hrun) as [Hl Hready].
  destruct (Hready cs Hcs) as [Hne [p Hp]].
  exists p. split; [done|]. split.
  - intros name now h' s' Hname Hdiff E.
    apply (startSpeaking_switch h s cs p) in E
      as (_ & Hm & Ht & _); [|done..|congruence|done|done].
    split; [|done]. rewrite Hm.
    rewrite registered_keeps; rewrite lookup_insert_eq; [done|by eexists].
  - intros now h' s' Hst E.
    apply (stopTracking_speaking h s cs p) in E
      as (_ & Hm & Ht & _); [|done..].
    split; [|done]. by rewrite Hm, lookup_insert_eq.
Qed.

Lemma open_turn_is_recorded_witness :
  exists h s h' s',
    session None [CallStart (JString "State") (Some 1000)]
    = (h, Returns (Some s))
    /\ startSpeaking (Some s) (JString "Defense") (Some 4000) h = (h', s')
    /\ timelineAt h' (timeline s')
       = (timelineAt h (timeline s)
            ++ [turnEntry "State" (startTime s) 4000])%list.
Proof.
  destruct (session_returns None [CallStart (JString "State") (Some 1000)])
    as (h & s & E).
  destruct (startSpeaking (Some s) (JString "Defense") (Some 4000) h)
    as [h' s'] eqn:E'.
  exists h, s, h', s'. split; [exact E|]. split; [exact E'|].
  destruct (open_turn_is_recorded None
              [CallStart (JString "State") (Some 1000)] h s "State")
    as (p & _ & Hstart & _); [reflexivity|reflexivity|exact E| |].
  - revert E. vm_compute. by intros [= <- <-].
  - by apply (Hstart "Defense" 4000 h' s').
Defined.




(** ** Fresh states *)

Lemma initial_parties_lookup names : forall (acc : gmap string Participant) k,
  foldl (fun acc party => <[toPropertyKey party := newParticipant]> acc)
        acc names !! k
  = if decide (k ∈ toPropertyKey <$> names) then Some newParticipant
    else acc !! k.
Proof.
  induction names as [|n names IH]; intros acc k; cbn [foldl fmap list_fmap].
  - destruct (decide (k ∈ [])) as [Hin|_]; [|done]. by apply elem_of_nil in Hin.
  - rewrite IH.
    destruct (decide (k ∈ toPropertyKey <$> names)) as [Hin|Hnin].
    + rewrite decide_True; [done|]. by apply elem_of_cons; right.
    + destruct (decide (toPropertyKey n = k)) as [<-|Hne].
      * rewrite lookup_insert_eq, decide_True; [done|].
        by apply elem_of_cons; left.
      * rewrite lookup_insert_ne by done. rewrite decide_False; [done|].
        intros [->|?]%elem_of_cons; done.
Qed.

Lemma initializeSpeakingTime_lookup names h0 h s k :
  initializeSpeakingTime names h0 = (h, s) ->
  partiesAt h (parties s) !! k
  = if decide (k ∈ toPropertyKey <$> default defaultParties names)
    then Some newParticipant else None.
Proof.
  unfold initializeSpeakingTime, allocParties, allocTimeline.
  intros [= <- <-]. cbn [parties]. unfold partiesAt. cbn [objects].
  rewrite lookup_app_r, Nat.sub_diag by lia. cbn [lookup list_lookup default].
  unfold id. rewrite initial_parties_lookup, lookup_empty.
  by destruct names.
Qed.

Lemma initializeSpeakingTime_frame names h0 h s :
  initializeSpeakingTime names h0 = (h, s) ->
  parties s = length (objects h0) /\ timeline s = length (arrays h0)
  /\ (forall r, (r < length (objects h0))%nat ->
                partiesAt h r = partiesAt h0 r)
  /\ (forall r, (r < length (arrays h0))%nat ->
                timelineAt h r = timelineAt h0 r).
Proof.
  unfold initializeSpeakingTime, allocParties, allocTimeline.
  intros [= <- <-]. cbn [parties timeline]. split_and!; try done.
  - intros r Hr. unfold partiesAt. cbn [objects].
    by rewrite lookup_app_l.
  - intros r Hr. unfold timelineAt. cbn [arrays].
    by rewrite lookup_app_l.
Qed.

(** When ["__proto__"] is not among the given names (assigning to it
    replaces the prototype and adds no key) and the numbers among them
    are within [Number.MAX_SAFE_INTEGER], the keys of the parties of a
    fresh state are exactly the given names (State, Defense and Court
    when no list is given), each bound to a participant with no time and
    no segments; the timeline is empty, and every object that was
    already in the store is as it was. *)
Theorem fresh_state_has_the_given_names names h0 h s :
  forallb plainKey (default defaultParties names) = true ->
  initializeSpeakingTime names h0 = (h, s) ->
  (forall k,
      partiesAt h (parties s) !! k
      = if decide (k ∈ toPropertyKey <$> default defaultParties names)
        then Some (mkParticipant 0 []) else None)
  /\ timelineAt h (timeline s) = []
  /\ (forall r, (r < length (objects h0))%nat ->
                partiesAt h r = partiesAt h0 r)
  /\ (forall r, (r < length (arrays h0))%nat ->
                timelineAt h r = timelineAt h0 r).
Proof.
  intros _ E. split; [|split].
  - intros k. by apply (initializeSpeakingTime_lookup names h0).
  - by apply initializeSpeakingTime_view in E as (_ & _ & ? & _).
  - by apply initializeSpeakingTime_frame in E as (_ & _ & ? & ?).
Qed.

Lemma fresh_state_has_the_given_names_witness :
  exists h s,
    initializeSpeakingTime (Some [JString "Judge"; JNumber (Fin 7)]) emptyHeap
    = (h, s)
    /\ partiesAt h (parties s) !! "7" = Some (mkParticipant 0 [])
    /\ partiesAt h (parties s) !! "State" = None.
Proof.
  destruct (initializeSpeakingTime (Some [JString "Judge"; JNumber (Fin 7)])
              emptyHeap) as [h s] eqn:E.
  exists h, s. split; [reflexivity|].
  destruct (fresh_state_has_the_given_names
              (Some [JString "Judge"; JNumber (Fin 7)]) emptyHeap h s
              eq_refl E) as (Hk & _).
  split; rewrite Hk; reflexivity.
Defined.

(** ** What a call leaves alone *)

Lemma partiesAt_writeParties_ne h r m r' :
  r' <> r -> partiesAt (writeParties h r m) r' = partiesAt h r'.
Proof.
  intros Hne. unfold partiesAt, writeParties. cbn [objects].
  by rewrite list_lookup_insert_ne.
Qed.

Lemma timelineAt_writeTimeline_ne h r t r' :
  r' <> r -> timelineAt (writeTimeline h r t) r' = timelineAt h r'.
Proof.
  intros Hne. unfold timelineAt, writeTimeline. cbn [arrays].
  by rewrite list_lookup_insert_ne.
Qed.

Lemma finalizeTurn_frame h st cs p now :
  (forall r, r <> parties st ->
             partiesAt (finalizeTurn h st cs p now) r = partiesAt h r)
  /\ (forall r, r <> timeline st ->
                timelineAt (finalizeTurn h st cs p now) r = timelineAt h r).
Proof.
  unfold finalizeTurn. split; intros r Hr.
  - by rewrite partiesAt_writeTimeline, partiesAt_writeParties_ne.
  - by rewrite timelineAt_writeTimeline_ne, timelineAt_writeParties.
Qed.

Lemma call_frame c h s h' s' :
  call c (Some s) h = (h', Returns (Some s')) ->
  parties s' = parties s /\ timeline s' = timeline s
  /\ (forall r, r <> parties s -> partiesAt h' r = partiesAt h r)
  /\ (forall r, r <> timeline s -> timelineAt h' r = timelineAt h r).
Proof.
  destruct c as [party clock | clock | name | name]; cbn [call].
  - cbn [startSpeaking].
    destruct (negb (truthy party) || negb (isString party));
      [by intros [= <- <-]|].
    destruct clock as [now|]; [|by intros [= <- <-]].
    set (h1 := match currentSpeaker s with Some _ => _ | None => _ end).
    assert (H1 : (forall r, r <> parties s -> partiesAt h1 r = partiesAt h r)
                 /\ (forall r, r <> timeline s ->
                               timelineAt h1 r = timelineAt h r)).
    { subst h1. destruct (currentSpeaker s) as [cs|]; [|done].
      match goal with |- context [if ?b then _ else _] => destruct b end;
        [|done].
      destruct (partiesAt h (parties s) !! cs); [|done].
      apply finalizeTurn_frame. }
    clearbody h1. destruct H1 as [Hp Ht].
    destruct (partiesAt h1 (parties s) !! toPropertyKey party);
      intros [= <- <-]; cbn [parties timeline]; [done|].
    split_and!; try done.
    intros r Hr. by rewrite partiesAt_writeParties_ne, Hp.
  - cbn [stopTracking]. destruct clock as [now|]; [|by intros [= <- <-]].
    intros [= <- <-]. cbn [parties timeline]. split; [done|]. split; [done|].
    destruct (currentSpeaker s) as [cs|]; [|done].
    match goal with |- context [if ?b then _ else _] => destruct b end;
      [|done].
    destruct (partiesAt h (parties s) !! cs); [|done].
    apply finalizeTurn_frame.
  - cbn [addParty]. destruct (rejectedName name); [by intros [= <- <-]|].
    destruct (partiesAt h (parties s) !! toPropertyKey name);
      intros [= <- <-]; [done|].
    split_and!; try done.
    intros r Hr. by rewrite partiesAt_writeParties_ne.
  - cbn [removeParty].
    destruct (speakerIs (currentSpeaker s) name); intros [= <- <-]; [done|].
    split_and!; try done.
    intros r Hr. by rewrite partiesAt_writeParties_ne.
Qed.

Lemma runCalls_frame calls : forall h s h' s',
  runCalls calls (Some s) h = (h', Returns (Some s')) ->
  parties s' = parties s /\ timeline s' = timeline s
  /\ (forall r, r <> parties s -> partiesAt h' r = partiesAt h r)
  /\ (forall r, r <> timeline s -> timelineAt h' r = timelineAt h r).
Proof.
  induction calls as [|c rest IH]; intros h s h' s'; cbn [runCalls].
  - by intros [= <- <-].
  - destruct (call_returns c s h) as (h1 & s1 & E). rewrite E.
    apply call_frame in E as (Ep & Et & Hp & Hq).
    intros Hrun. apply IH in Hrun as (Ep' & Et' & Hp' & Hq').
    rewrite Ep', Et', Ep, Et. split_and!; try done.
    + intros r Hr. rewrite Hp' by congruence. by apply Hp.
    + intros r Hr. rewrite Hq' by congruence. by apply Hq.
Qed.

(** A state obtained from [initializeSpeakingTime] shares nothing with
    the states that exist already: whatever calls are made on it, the
    parties and the timeline of an earlier state stay as they were. *)
Theorem sessions_do_not_interfere names calls h s1 h1 s2 h2 s3 :
  live h s1 ->
  initializeSpeakingTime names h = (h1, s2) ->
  runCalls calls (Some s2) h1 = (h2, Returns (Some s3)) ->
  partiesAt h2 (parties s1) = partiesAt h (parties s1)
  /\ timelineAt h2 (timeline s1) = timelineAt h (timeline s1).
Proof.
  intros [Hp Ht] E0 Hrun.
  apply initializeSpeakingTime_frame in E0 as (Ep & Et & Hfp & Hft).
  apply runCalls_frame in Hrun as (_ & _ & Hfp' & Hft').
  rewrite Hfp', Hft' by lia. split; [by apply Hfp | by apply Hft].
Qed.

Lemma sessions_do_not_interfere_witness :
  exists h s1 h1 s2 h2 s3,
    initializeSpeakingTime None emptyHeap = (h, s1)
    /\ live h s1
    /\ initializeSpeakingTime None h = (h1, s2)
    /\ runCalls [CallAdd (JString "Witness"); CallRemove (JString "State")]
         (Some s2) h1 = (h2, Returns (Some s3))
    /\ partiesAt h2 (parties s1) = partiesAt h (parties s1).
Proof.
  destruct (initializeSpeakingTime None emptyHeap) as [h s1] eqn:E.
  destruct (initializeSpeakingTime None h) as [h1 s2] eqn:E1.
  destruct (runCalls_returns
              [CallAdd (JString "Witness"); CallRemove (JString "State")]
              s2 h1) as (h2 & s3 & E2).
  assert (Hl : live h s1).
  { injection E as <- <-. unfold live. cbn. lia. }
  exists h, s1, h1, s2, h2, s3. split_and!; try done.
  by destruct (sessions_do_not_interfere _ _ _ _ _ _ _ _ Hl E1 E2).
Defined.

(** ** The hearing start time *)

(** Once the hearing start time of a reachable state is a non-zero
    timestamp, no later call changes it. *)
Theorem hearingStartTime_is_kept names calls h s later h' s' :
  session names calls = (h, Returns (Some s)) ->
  truthyTime (hearingStartTime s) = true ->
  runCalls later (Some s) h = (h', Returns (Some s')) ->
  hearingStartTime s' = hearingStartTime s.
Proof.
  intros Hrun Hset Hlater.
  assert (Hl : live h s).
  { revert Hrun. unfold session.
    destruct (initializeSpeakingTime names emptyHeap) as [h0 s0] eqn:E0.
    apply live_initializeSpeakingTime in E0. intros Hrun.
    by apply (runCalls_invariant (fun _ _ _ _ => True)) in Hrun as [? _]. }
  apply (runCalls_invariant
           (fun _ s1 _ _ => hearingStartTime s1 = hearingStartTime s))
    in Hlater as [_ H]; [done| |done|done].
  intros c rest s0 m t s1 m1 t1 HJ He.
  apply callEffect_inv in He
    as [(-> & _) | [(name & now & m2 & _ & _ & -> & _)
       | [(now & _ & -> & _) | [(name & _ & -> & _) | (n & _ & -> & _)]]]];
    try done.
  cbn [startedState hearingStartTime]. by rewrite HJ, Hset.
Qed.

Lemma hearingStartTime_is_kept_witness :
  exists h s h' s',
    session None [CallStart (JString "State") (Some 1000)]
    = (h, Returns (Some s))
    /\ runCalls [CallStop (Some 2000); CallStart (JString "Court") (Some 3000)]
         (Some s) h = (h', Returns (Some s'))
    /\ hearingStartTime s' = hearingStartTime s.
Proof.
  destruct (session_returns None [CallStart (JString "State") (Some 1000)])
    as (h & s & E).
  destruct (runCalls_returns
              [CallStop (Some 2000); CallStart (JString "Court") (Some 3000)]
              s h) as (h' & s' & E').
  exists h, s, h', s'. split; [exact E|]. split; [exact E'|].
  eapply (hearingStartTime_is_kept _ _ _ _ _ _ _ E); [|exact E'].
  revert E. vm_compute. by intros [= <- <-].
Defined.

(** ** Adding and removing a participant *)

(** Adding a new participant and removing it again, while it is not the
    current speaker, gives back the state and leaves the store exactly
    as it was. *)
Theorem addParty_then_removeParty h s name h1 s1 h2 o :
  live h s ->
  trim name <> "" ->
  partiesAt h (parties s) !! name = None ->
  currentSpeaker s <> Some name ->
  addParty (Some s) (JString name) h = (h1, s1) ->
  removeParty (Some s1) (JString name) h1 = (h2, o) ->
  o = Returns (Some s) /\ h2 = h.
Proof.
  intros [Hp Ht] Htrim Hnone Hcs. cbn [addParty]. unfold rejectedName.
  cbn [truthy isString toPropertyKey negb orb].
  pose proof (trim_nonempty name Htrim) as Hne.
  apply String.eqb_neq in Hne, Htrim. rewrite Hne, Htrim. cbn [negb orb].
  rewrite Hnone. intros [= <- <-]. cbn [removeParty toPropertyKey].
  assert (Hsp : speakerIs (currentSpeaker s) (JString name) = false).
  { destruct (currentSpeaker s) as [cs|]; [|done]. cbn.
    apply String.eqb_neq. congruence. }
  rewrite Hsp. intros [= <- <-]. split; [done|].
  rewrite partiesAt_writeParties by done.
  rewrite delete_insert_id by done.
  unfold writeParties. cbn [objects arrays].
  rewrite list_insert_insert_eq.
  destruct (lookup_lt_is_Some_2 _ _ Hp) as [m Hm].
  replace (partiesAt h (parties s)) with m
    by (unfold partiesAt, Ref; by rewrite Hm).
  rewrite list_insert_id by done. by destruct h.
Qed.

Lemma addParty_then_removeParty_witness :
  exists h s h1 s1,
    initializeSpeakingTime None emptyHeap = (h, s)
    /\ addParty (Some s) (JString "Witness") h = (h1, s1)
    /\ removeParty (Some s1) (JString "Witness") h1 = (h, Returns (Some s)).
Proof.
  destruct (initializeSpeakingTime None emptyHeap) as [h s] eqn:E.
  destruct (addParty (Some s) (JString "Witness") h) as [h1 s1] eqn:E1.
  destruct (removeParty (Some s1) (JString "Witness") h1) as [h2 o] eqn:E2.
  exists h, s, h1, s1. split; [reflexivity|]. split; [exact E1|].
  rewrite E2.
  destruct (addParty_then_removeParty h s "Witness" h1 s1 h2 o)
    as [-> ->]; try done.
  - injection E as <- <-. unfold live. cbn. lia.
  - injection E as <- <-. vm_compute. reflexivity.
  - injection E as <- <-. discriminate.
Defined.

(** ** Statistics *)

Lemma roundDiv_nearest a n :
  0 < n -> 2 * a - n < 2 * n * roundDiv a n <= 2 * a + n.
Proof.
  intros Hn. unfold roundDiv.
  pose proof (Z.div_mod (2 * a + n) (2 * n) ltac:(lia)) as Hdm.
  pose proof (Z.mod_pos_bound (2 * a + n) (2 * n) ltac:(lia)) as Hb.
  lia.
Qed.

(** [calculateStatistics] reports exactly the participants of the
    state: for each one its total time and its number of segments, and
    an average per segment that is 0 when there is no segment (nothing
    is divided by zero) and otherwise, for a total time below 2^52 in
    absolute value (where the quotient of the two doubles rounds like
    the exact one), the mean rounded to the nearest millisecond. *)
Theorem statistics_per_participant s h :
  (forall name,
      partiesAt h (parties s) !! name = None ->
      statsParties (calculateStatistics (Some s) h) !! name = None)
  /\ (forall name p,
        partiesAt h (parties s) !! name = Some p ->
        exists ps,
          statsParties (calculateStatistics (Some s) h) !! name = Some ps
          /\ ps_totalTime ps = totalTime p
          /\ segmentCount ps = length (segments p)
          /\ (segments p = [] -> averageSegmentTime ps = 0)
          /\ (segments p <> [] ->
              Z.abs (totalTime p) < 2 ^ 52 ->
              2 * totalTime p - Z.of_nat (length (segments p))
              < 2 * Z.of_nat (length (segments p)) * averageSegmentTime ps
              <= 2 * totalTime p + Z.of_nat (length (segments p)))).
Proof.
  cbn [calculateStatistics statsParties]. split.
  - intros name Hn. by rewrite lookup_fmap, Hn.
  - intros name p Hp. exists (partyStats p).
    rewrite lookup_fmap, Hp. split; [done|].
    cbn [partyStats ps_totalTime segmentCount averageSegmentTime].
    split; [done|]. split; [done|]. split.
    + by intros ->.
    + intros Hne _. destruct (segments p) as [|sg l] eqn:Hs; [done|].
      cbn [length Nat.ltb Nat.leb]. apply roundDiv_nearest. lia.
Qed.

Lemma statistics_per_participant_witness :
  exists h s ps,
    session None [CallStart (JString "State") (Some 1000);
                  CallStart (JString "Defense") (Some 1004);
                  CallStart (JString "State") (Some 2000);
                  CallStop (Some 2003)] = (h, Returns (Some s))
    /\ statsParties (calculateStatistics (Some s) h) !! "State" = Some ps
    /\ ps_totalTime ps = 7 /\ segmentCount ps = 2%nat
    /\ averageSegmentTime ps = 4.
Proof.
  destruct (session_returns None
              [CallStart (JString "State") (Some 1000);
               CallStart (JString "Defense") (Some 1004);
               CallStart (JString "State") (Some 2000);
               CallStop (Some 2003)]) as (h & s & E).
  destruct (statistics_per_participant s h) as [_ Hsome].
  destruct (Hsome "State"
              (mkParticipant 7 [mkSegment (Some 1000) 1004 4;
                                mkSegment (Some 2000) 2003 3]))
    as (ps & Hps & Ht & Hc & _ & Havg).
  { revert E. vm_compute. by intros [= <- <-]. }
  exists h, s, ps. split; [exact E|]. split; [exact Hps|].
  split; [exact Ht|]. split; [exact Hc|].
  cbn in Havg. specialize (Havg ltac:(discriminate) eq_refl). lia.
Defined.

(** ** The timer shown by the tracker component *)

Lemma formatTime_clamp x :
  formatTime (MsNum (Fin (Z.max 0 x))) = formatTime (MsNum (Fin x)).
Proof.
  destruct (Z.le_gt_cases 0 x) as [Hx|Hx].
  - by rewrite Z.max_r.
  - rewrite Z.max_l by lia. unfold formatTime. cbn [isNaN ltZero].
    destruct (Z.ltb_spec x 0); [reflexivity|lia].
Qed.

(** Once a hearing has a start and an end (both non-zero timestamps),
    the total time that the tracker component displays is the formatted
    [totalHearingTime] of the statistics, whatever the timer and the
    clock say. *)
Theorem displayed_total_matches_statistics s h currentTime now :
  truthyTime (hearingStartTime s) = true ->
  truthyTime (hearingEndTime s) = true ->
  getTotalHearingTime s currentTime now
  = formatTime (MsNum (Fin (totalHearingTime (calculateStatistics (Some s) h)))).
Proof.
  intros Hs He. unfold getTotalHearingTime, firstTruthy.
  rewrite Hs, He. cbn [calculateStatistics totalHearingTime].
  by rewrite formatTime_clamp.
Qed.

Lemma displayed_total_matches_statistics_witness :
  getTotalHearingTime
    (mkState 0%nat None None (Some 1000) (Some 126000) false true 0%nat) 5 7
  = "2:05".
Proof.
  rewrite (displayed_total_matches_statistics _ emptyHeap); reflexivity.
Defined.

(** ** The duration formatters of the recorder and the deposition mode *)

Lemma seconds_minutes s : 0 <= s -> Z.rem s 3600 / 60 = (s / 60) mod 60.
Proof.
  intros Hs. rewrite Z.rem_mod_nonneg by lia.
  change 3600 with (60 * 60). rewrite Z.rem_mul_r by lia.
  rewrite Z.mul_comm, Z.div_add by lia.
  rewrite (Z.div_small (s mod 60)); [lia|]. apply Z.mod_pos_bound. lia.
Qed.

(** On a whole number of seconds whose milliseconds stay within
    [Number.MAX_SAFE_INTEGER], the deposition mode formats a duration
    exactly as [formatTime] formats the same duration in milliseconds;
    the recorder's [formatDuration] agrees with both below one hour, and
    from one hour on it keeps counting minutes instead of switching to
    hours. *)
Theorem duration_formatters_agree seconds :
  0 <= seconds ->
  1000 * seconds <= maxSafeInteger ->
  depositionFormatDuration seconds = formatTime (MsNum (Fin (1000 * seconds)))
  /\ (seconds < 3600 ->
      formatDuration seconds = formatTime (MsNum (Fin (1000 * seconds))))
  /\ formatDuration seconds
     = intToString (seconds / 60) +:+ ":" +:+ twoDigits (seconds mod 60).
Proof.
  intros Hs Hsafe.
  assert (H1 : 1000 * seconds / 1000 = seconds)
    by (rewrite Z.mul_comm; apply Z.div_mul; lia).
  assert (H60 : 1000 * seconds / 60000 = seconds / 60)
    by (change 60000 with (1000 * 60); apply Z.div_mul_cancel_l; lia).
  assert (H3600 : 1000 * seconds / 3600000 = seconds / 3600)
    by (change 3600000 with (1000 * 3600); apply Z.div_mul_cancel_l; lia).
  assert (Hsec : 0 <= seconds mod 60 < 100)
    by (pose proof (Z.mod_pos_bound seconds 60); lia).
  assert (Hmin : 0 <= (seconds / 60) mod 60 < 100)
    by (pose proof (Z.mod_pos_bound (seconds / 60) 60); lia).
  assert (Hfd : formatDuration seconds
                = intToString (seconds / 60) +:+ ":"
                  +:+ twoDigits (seconds mod 60)).
  { unfold formatDuration. cbn zeta.
    by rewrite Z.rem_mod_nonneg, padStart_twoDigits by lia. }
  split; [|split; [|exact Hfd]].
  - unfold depositionFormatDuration. cbn zeta.
    rewrite seconds_minutes, (Z.rem_mod_nonneg seconds 60) by lia.
    rewrite !padStart_twoDigits by lia.
    destruct (Z.ltb_spec 0 (seconds / 3600)) as [Hh|Hh].
    + assert (3600 <= seconds).
      { destruct (Z.lt_ge_cases seconds 3600) as [Hlt|]; [|done].
        rewrite Z.div_small in Hh; lia. }
      rewrite formatTime_hours by (split; [lia|exact Hsafe]).
      by rewrite H1, H60, H3600.
    + assert (seconds < 3600).
      { destruct (Z.lt_ge_cases seconds 3600) as [|Hge]; [done|].
        pose proof (Z.div_le_lower_bound seconds 3600 1). lia. }
      rewrite formatTime_under_hour by lia. rewrite H1, H60.
      by rewrite (Z.mod_small (seconds / 60)) by
        (split; [apply Z.div_pos; lia | apply Z.div_lt_upper_bound; lia]).
  - intros Hlt. rewrite Hfd, formatTime_under_hour by lia.
    by rewrite H1, H60.
Qed.

Lemma duration_formatters_agree_witness :
  depositionFormatDuration 3725 = "1:02:05"
  /\ formatDuration 3725 = "62:05"
  /\ formatDuration 125 = formatTime (MsNum (Fin 125000)).
Proof.
  destruct (duration_formatters_agree 3725) as (Hd & _ & Hf);
    [lia|unfold maxSafeInteger; lia|].
  destruct (duration_formatters_agree 125) as (_ & Hlt & _);
    [lia|unfold maxSafeInteger; lia|].
  split; [rewrite Hd; reflexivity|].
  split; [rewrite Hf; reflexivity|].
  apply Hlt. lia.
Defined.

(** ** Names entered in the tracker component *)

Lemma trimEnd_cons c r :
  trimEnd (String c r)
  = match trimEnd r with
    | EmptyString => if isWhitespace c then EmptyString else String c EmptyString
    | r' => String c r'
    end.
Proof. reflexivity. Qed.

Lemma trimEnd_idem s : trimEnd (trimEnd s) = trimEnd s.
Proof.
  induction s as [|c r IH]; [done|]. rewrite trimEnd_cons.
  destruct (trimEnd r) as [|d w] eqn:Er.
  - destruct (isWhitespace c) eqn:Hc; [done|].
    rewrite trimEnd_cons. cbn [trimEnd]. by rewrite Hc.
  - by rewrite trimEnd_cons, IH.
Qed.

Lemma trimEnd_head c r :
  isWhitespace c = false -> exists r', trimEnd (String c r) = String c r'.
Proof.
  intros Hc. cbn [trimEnd]. rewrite Hc.
  destruct (trimEnd r); by eexists.
Qed.

Lemma trimStart_head s :
  trimStart s = ""
  \/ exists c r, trimStart s = String c r /\ isWhitespace c = false.
Proof.
  induction s as [|c r IH]; [by left|]. cbn [trimStart].
  destruct (isWhitespace c) eqn:Hc; [done|]. right. by exists c, r.
Qed.

Lemma trim_idem s : trim (trim s) = trim s.
Proof.
  unfold trim. destruct (trimStart_head s) as [-> | (c & r & -> & Hc)]; [done|].
  destruct (trimEnd_head c r Hc) as [r' Er]. rewrite Er.
  cbn [trimStart]. rewrite Hc, <- Er. apply trimEnd_idem.
Qed.

(** The tracker component trims the name that the user typed before it
    calls [addParty].  For a name typed in ASCII whose trimmed form
    names no property of [Object.prototype]: a name that is empty after
    trimming changes nothing, any other is registered under its trimmed
    form, so every key that the component adds is free of surrounding
    white space. *)
Theorem handleAddParty_registers_trimmed_name h s newPartyName h' s' :
  live h s ->
  isAscii newPartyName = true ->
  inheritedKey (trim newPartyName) = false ->
  handleAddParty s newPartyName h = (h', s') ->
  s' = s
  /\ timelineAt h' (timeline s) = timelineAt h (timeline s)
  /\ partiesAt h' (parties s)
     = (if decide (trim newPartyName = "") then partiesAt h (parties s)
        else registered (trim newPartyName) (partiesAt h (parties s)))
  /\ (forall k,
        partiesAt h (parties s) !! k = None ->
        is_Some (partiesAt h' (parties s) !! k) ->
        k = trim newPartyName /\ trim k = k).
Proof.
  intros Hl _ _. unfold handleAddParty.
  destruct (String.eqb_spec (trim newPartyName) "") as [He|Hne]; cbn [negb].
  - intros [= <- <-]. rewrite decide_True by done.
    split_and!; try done. intros k -> [? ?]. done.
  - rewrite decide_False by done. cbn [addParty]. unfold rejectedName.
    cbn [truthy isString toPropertyKey negb orb]. rewrite trim_idem.
    assert (Hne' : trim newPartyName <> "") by done.
    apply String.eqb_neq in Hne. rewrite Hne. cbn [negb orb].
    unfold registered.
    destruct (partiesAt h (parties s) !! trim newPartyName) eqn:Hk;
      intros [= <- <-].
    + split_and!; try done. intros k -> [? ?]. done.
    + rewrite partiesAt_writeParties by apply Hl. split_and!; try done.
      intros k Hnone Hsome.
      destruct (decide (trim newPartyName = k)) as [<-|Hd].
      * split; [done|]. apply trim_idem.
      * rewrite lookup_insert_ne, Hnone in Hsome by done. by destruct Hsome.
Qed.

Lemma handleAddParty_registers_trimmed_name_witness :
  exists h s h' s',
    initializeSpeakingTime None emptyHeap = (h, s)
    /\ handleAddParty s "  Judge " h = (h', s')
    /\ partiesAt h' (parties s) !! "Judge" = Some newParticipant.
Proof.
  destruct (initializeSpeakingTime None emptyHeap) as [h s] eqn:E.
  destruct (handleAddParty s "  Judge " h) as [h' s'] eqn:E'.
  exists h, s, h', s'. split; [reflexivity|]. split; [exact E'|].
  destruct (handleAddParty_registers_trimmed_name h s "  Judge " h' s')
    as (_ & _ & Hm & _); [|reflexivity|reflexivity|exact E'|].
  - injection E as <- <-. unfold live. cbn. lia.
  - rewrite Hm. injection E as <- <-. vm_compute. reflexivity.
Defined.

(** Resetting the tracker gives a fresh state with the same participant
    names, all back to no time and no segments, an empty timeline and no
    hearing times; the state that was reset keeps its parties and its
    timeline. *)
Theorem handleReset_keeps_the_names h s keys h' s' :
  live h s ->
  (forall k, k ∈ keys <-> is_Some (partiesAt h (parties s) !! k)) ->
  handleReset keys h = (h', s') ->
  (forall k,
      partiesAt h' (parties s') !! k
      = (fun _ => mkParticipant 0 []) <$> partiesAt h (parties s) !! k)
  /\ timelineAt h' (timeline s') = []
  /\ currentSpeaker s' = None /\ hearingStartTime s' = None
  /\ hearingEndTime s' = None /\ isActive s' = false
  /\ partiesAt h' (parties s) = partiesAt h (parties s)
  /\ timelineAt h' (timeline s) = timelineAt h (timeline s).
Proof.
  intros [Hp Ht] Hkeys E. unfold handleReset in E.
  pose proof (initializeSpeakingTime_view _ _ _ _ E)
    as (_ & _ & Htl & Hcs & _ & Hhs & Hhe & Ha & _).
  pose proof (initializeSpeakingTime_frame _ _ _ _ E) as (_ & _ & Hfp & Hft).
  split_and!; try done; [|by apply Hfp|by apply Hft].
  intros k. rewrite (initializeSpeakingTime_lookup _ _ _ _ k E).
  cbn [default]. unfold id. rewrite <- list_fmap_compose.
  replace (toPropertyKey ∘ JString) with (@id string) by done.
  rewrite list_fmap_id.
  destruct (decide (k ∈ keys)) as [Hin|Hnin].
  - apply Hkeys in Hin as [p ->]. done.
  - destruct (partiesAt h (parties s) !! k) eqn:Hk; [|done].
    exfalso. apply Hnin, Hkeys. by eexists.
Qed.

Lemma handleReset_keeps_the_names_witness :
  exists h s h' s',
    session (Some [JString "State"])
      [CallStart (JString "State") (Some 1000); CallStop (Some 5000)]
    = (h, Returns (Some s))
    /\ handleReset ["State"] h = (h', s')
    /\ partiesAt h' (parties s') !! "State" = Some (mkParticipant 0 [])
    /\ partiesAt h' (parties s) = partiesAt h (parties s).
Proof.
  destruct (session_returns (Some [JString "State"])
              [CallStart (JString "State") (Some 1000); CallStop (Some 5000)])
    as (h & s & E).
  destruct (handleReset ["State"] h) as [h' s'] eqn:E'.
  exists h, s, h', s'. split; [exact E|]. split; [exact E'|].
  assert (Hm : partiesAt h (parties s)
               = {[ "State" := mkParticipant 4000
                                 [mkSegment (Some 1000) 5000 4000] ]}).
  { revert E. vm_compute. by intros [= <- <-]. }
  destruct (handleReset_keeps_the_names h s ["State"] h' s')
    as (Hk & _ & _ & _ & _ & _ & Hold & _); [| |exact E'|].
  - revert E. vm_compute. intros [= <- <-]. cbn. lia.
  - intros k. rewrite Hm. split.
    + intros ->%list_elem_of_singleton. rewrite lookup_singleton_eq.
      by eexists.
    + intros [p [<- _]%lookup_singleton_Some]. by apply list_elem_of_singleton.
  - split; [|exact Hold]. by rewrite Hk, Hm, lookup_singleton_eq.
Defined.

(** ** Chart data *)

Lemma chart_data_present (m : gmap string Participant) (keys : list string) :
  (forall k, k ∈ keys -> is_Some (m !! k)) ->
  omap (fun k => ps_totalTime <$> (partyStats <$> m) !! k) keys
  = (fun k => default 0 (totalTime <$> m !! k)) <$> keys.
Proof.
  induction keys as [|k ks IH]; intros Hall; [done|].
  cbn [omap list_omap fmap list_fmap].
  destruct (Hall k) as [p Hp]; [by apply elem_of_cons; left|].
  rewrite lookup_fmap, Hp. cbn. f_equal.
  apply IH. intros k' Hk'. apply Hall. by apply elem_of_cons; right.
Qed.

Lemma sum_over_keys (m : gmap string Participant) (keys : list string) :
  NoDup keys ->
  (forall k, k ∈ keys <-> is_Some (m !! k)) ->
  foldr Z.add 0 ((fun k => default 0 (totalTime <$> m !! k)) <$> keys)
  = sumValues totalTime m.
Proof.
  revert m. induction keys as [|k ks IH]; intros m Hnd Hkeys.
  - assert (m = ∅) as ->.
    { apply map_empty. intros i. destruct (m !! i) eqn:Hi; [|done].
      assert (i ∈ []) as Hin by (apply Hkeys; by eexists).
      by apply elem_of_nil in Hin. }
    by rewrite sumValues_empty.
  - apply NoDup_cons in Hnd as [Hk Hnd].
    destruct (proj1 (Hkeys k)) as [p Hp]; [by apply elem_of_cons; left|].
    cbn [fmap list_fmap foldr]. rewrite Hp. cbn [fmap option_fmap option_map default].
    rewrite (sumValues_delete totalTime m k p Hp).
    rewrite <- (IH (delete k m) Hnd).
    + assert (Heq : forall l : list string, (forall k', k' ∈ l -> k' <> k) ->
                (fun k0 => default 0 (totalTime <$> m !! k0)) <$> l
                = (fun k0 => default 0 (totalTime <$> delete k m !! k0)) <$> l).
      { induction l as [|x l IHl]; intros Hl; [done|].
        cbn [fmap list_fmap]. rewrite lookup_delete_ne.
        - f_equal. apply IHl. intros k' Hk'. apply Hl. by apply elem_of_cons; right.
        - intros <-. by apply (Hl k); [apply elem_of_cons; left|]. }
      rewrite (Heq ks); [unfold id; lia|]. intros k' Hk' ->. done.
    + intros k'. split.
      * intros Hin. rewrite lookup_delete_ne by (intros <-; done).
        apply Hkeys. by apply elem_of_cons; right.
      * intros [q Hq]. apply lookup_delete_Some in Hq as [Hne Hq].
        assert (k' ∈ k :: ks) as [->|?]%elem_of_cons
          by (apply Hkeys; by eexists); done.
Qed.

(** When [keys] lists the participants of a state, each once, the chart
    has one value per label, the value at each position is the total
    time of the participant named by the label at that position, the
    values add up to the total speaking time of the statistics, and the
    list of colours has six entries however many participants there
    are. *)
Theorem chart_data_matches_statistics (keys : list string) s h :
  NoDup keys ->
  (forall k, k ∈ keys <-> is_Some (partiesAt h (parties s) !! k)) ->
  labels (generateChartData keys (Some s) h) = keys
  /\ length (data (generateChartData keys (Some s) h)) = length keys
  /\ (forall i k,
        keys !! i = Some k ->
        data (generateChartData keys (Some s) h) !! i
        = totalTime <$> partiesAt h (parties s) !! k)
  /\ foldr Z.add 0 (data (generateChartData keys (Some s) h))
     = totalSpeakingTime (calculateStatistics (Some s) h)
  /\ length (backgroundColor (generateChartData keys (Some s) h)) = 6%nat.
Proof.
  intros Hnd Hkeys.
  cbn [generateChartData labels data backgroundColor calculateStatistics
         statsParties totalSpeakingTime].
  rewrite chart_data_present by (intros k Hk; by apply Hkeys).
  split; [done|]. split; [by rewrite length_fmap|].
  split; [|split; [by apply sum_over_keys|done]].
  intros i k Hi. rewrite list_lookup_fmap, Hi. cbn.
  destruct (proj1 (Hkeys k)) as [p Hp].
  { apply list_elem_of_lookup. by exists i. }
  by rewrite Hp.
Qed.

Lemma chart_data_matches_statistics_witness :
  exists h s,
    session (Some [JString "State"])
      [CallStart (JString "State") (Some 1000); CallStop (Some 5000)]
    = (h, Returns (Some s))
    /\ data (generateChartData ["State"] (Some s) h) = [4000]
    /\ foldr Z.add 0 (data (generateChartData ["State"] (Some s) h))
       = totalSpeakingTime (calculateStatistics (Some s) h).
Proof.
  destruct (session_returns (Some [JString "State"])
              [CallStart (JString "State") (Some 1000); CallStop (Some 5000)])
    as (h & s & E).
  exists h, s. split; [exact E|].
  assert (Hm : partiesAt h (parties s)
               = {[ "State" := mkParticipant 4000
                                 [mkSegment (Some 1000) 5000 4000] ]}).
  { revert E. vm_compute. by intros [= <- <-]. }
  split.
  - cbn [generateChartData data calculateStatistics statsParties].
    rewrite Hm. vm_compute. reflexivity.
  - apply chart_data_matches_statistics.
    + apply NoDup_singleton.
    + intros k. rewrite Hm. split.
      * intros ->%list_elem_of_singleton. rewrite lookup_singleton_eq.
        by eexists.
      * intros [p [<- _]%lookup_singleton_Some].
        by apply list_elem_of_singleton.
Defined.

(** ** Well-formed records *)

(** In every state that a session reaches, every timeline entry and
    every segment has a numeric start, and its duration is its end minus
    its start. *)
Theorem recorded_turns_are_well_formed names calls h s :
  session names calls = (h, Returns (Some s)) ->
  Forall (fun e => exists start,
            tl_start e = Some start /\ tl_duration e = tl_end e - start)
         (timelineAt h (timeline s))
  /\ (forall name p,
        partiesAt h (parties s) !! name = Some p ->
        Forall (fun sg => exists start,
                  seg_start sg = Some start
                  /\ seg_duration sg = seg_end sg - start)
               (segments p)).
Proof.
  intros Hrun.
  pose (J := fun (_ : list Call) (s : State)
                 (m : gmap string Participant) (t : list TimelineEntry) =>
    (is_Some (currentSpeaker s) -> is_Some (startTime s))
    /\ Forall (fun e => exists start,
                 tl_start e = Some start /\ tl_duration e = tl_end e - start) t
    /\ (forall name p, m !! name = Some p ->
          Forall (fun sg => exists start,
                    seg_start sg = Some start
                    /\ seg_duration sg = seg_end sg - start) (segments p))).
  cut (J [] s (partiesAt h (parties s)) (timelineAt h (timeline s)));
    [by intros (_ & ? & ?)|].
  revert Hrun. apply (session_invariant J); subst J; cbn beta.
  - intros c rest s0 m t s' m' t' (Hst & Ht & Hm) Heff.
    assert (Hclosed : forall next now m1 t1,
               turnClosed s0 next now m t m1 t1 ->
               Forall (fun e => exists start,
                         tl_start e = Some start
                         /\ tl_duration e = tl_end e - start) t1
               /\ (forall name p, m1 !! name = Some p ->
                     Forall (fun sg => exists start,
                               seg_start sg = Some start
                               /\ seg_duration sg = seg_end sg - start)
                            (segments p))).
    { intros next now m1 t1
        [[-> ->] | (cs & q & Hcs & _ & _ & _ & Hq & -> & ->)]; [done|].
      destruct Hst as [start Hstart]; [rewrite Hcs; by eexists|].
      rewrite Hstart. split.
      - apply Forall_app. split; [done|]. repeat constructor. by exists start.
      - intros name p. destruct (decide (cs = name)) as [->|Hne].
        + rewrite lookup_insert_eq. intros [= <-]. cbn [closeTurn segments].
          apply Forall_app. split; [by eapply Hm|].
          repeat constructor. by exists start.
        + rewrite lookup_insert_ne by done. apply Hm. }
    apply callEffect_inv in Heff
      as [(-> & -> & ->) | [(name & now & m1 & _ & Hn & -> & Hturn & ->)
         | [(now & _ & -> & Hturn) | [(name & _ & -> & -> & _ & _ & ->)
         | (n & _ & -> & -> & _ & ->)]]]];
      try done.
    + destruct (Hclosed _ _ _ _ Hturn) as [Ht' Hm'].
      split; [by eexists|]. split; [done|].
      intros k p Hp. apply registered_lookup_Some in Hp as [Hp | ->];
        [by eapply Hm'|constructor].
    + destruct (Hclosed _ _ _ _ Hturn) as [Ht' Hm'].
      split; [by intros [? ?]|done].
    + split; [done|]. split; [done|]. intros k p.
      destruct (decide (name = k)) as [->|Hne].
      * rewrite lookup_insert_eq. intros [= <-]. constructor.
      * rewrite lookup_insert_ne by done. apply Hm.
    + split; [done|]. split; [done|]. intros k p Hp.
      apply lookup_delete_Some in Hp as [_ Hp]. by eapply Hm.
  - intros s0 m0 Hcs _ _ _ _ _ Hnew. split; [|split; [done|]].
    + rewrite Hcs. by intros [? ?].
    + intros k p Hp. rewrite (Hnew k p Hp). constructor.
Qed.

Lemma recorded_turns_are_well_formed_witness :
  exists h s,
    session None [CallStart (JString "State") (Some 1000);
                  CallStop (Some 9000)] = (h, Returns (Some s))
    /\ timelineAt h (timeline s)
       = [mkTimelineEntry "State" (Some 1000) 9000 8000]
    /\ Forall (fun e => exists start,
                 tl_start e = Some start /\ tl_duration e = tl_end e - start)
              (timelineAt h (timeline s)).
Proof.
  eexists _, _.
  split; [vm_compute; reflexivity|].
  split; [vm_compute; reflexivity|].
  eapply (recorded_turns_are_well_formed None
            [CallStart (JString "State") (Some 1000); CallStop (Some 9000)]).
  vm_compute. reflexivity.
Defined.

Lemma speaker_tracks_calls_witness :
  exists h s,
    session None [CallStart (JString "State") (Some 1000);
                  CallStop (Some 2000);
                  CallStart (JString "Defense") (Some 3000)]
    = (h, Returns (Some s))
    /\ is_Some (currentSpeaker s).
Proof.
  destruct (session_returns None
              [CallStart (JString "State") (Some 1000);
               CallStop (Some 2000);
               CallStart (JString "Defense") (Some 3000)]) as (h & s & E).
  exists h, s. split; [exact E|].
  destruct (speaker_tracks_calls None
              [CallStart (JString "State") (Some 1000);
               CallStop (Some 2000);
               CallStart (JString "Defense") (Some 3000)] h s eq_refl E)
    as [Hiff _].
  apply Hiff. reflexivity.
Defined.
